(** * Learning Companion

    A model of [learning_agent.py] (class [LearningAgent]) and of
    [notebook_helper.py] (the notebook entry points [explain], [experiments]
    and [teach]), and the properties of the tutoring companion that follow
    from the code.

    Python [str] values are sequences of Unicode code points, Python [int]
    values are [Z], dictionaries read from JSON are [gmap]s, and calls that
    display output or reach the text-generation service are functions on an
    explicit [world]. *)

From Stdlib Require Import ZArith List Lia DecimalString.
From stdpp Require Import base numbers option list strings gmap.

(** ** Python strings *)

Module PyStr.

(** A [str] is the list of its code points, so that [s[:100]] is [take 100 s]
    and [len(s)] is [length s]. *)
Abbreviation pystr := (list N).

Definition bytes_of (s : string) : list N :=
  map Byte.to_N (String.list_byte_of_string s).

(** Source literals are written as Rocq strings, which hold UTF-8 bytes;
    [utf8_decode] recovers the code points. *)
Fixpoint utf8_decode (bs : list N) : pystr :=
  match bs with
  | [] => []
  | b0 :: t0 =>
      if (b0 <? 128)%N then b0 :: utf8_decode t0
      else if (b0 <? 224)%N then
        match t0 with
        | b1 :: t1 => ((b0 - 192) * 64 + (b1 - 128))%N :: utf8_decode t1
        | _ => []
        end
      else if (b0 <? 240)%N then
        match t0 with
        | b1 :: b2 :: t2 =>
            ((b0 - 224) * 4096 + (b1 - 128) * 64 + (b2 - 128))%N
              :: utf8_decode t2
        | _ => []
        end
      else
        match t0 with
        | b1 :: b2 :: b3 :: t3 =>
            ((b0 - 240) * 262144 + (b1 - 128) * 4096
             + (b2 - 128) * 64 + (b3 - 128))%N :: utf8_decode t3
        | _ => []
        end
  end.

Definition py (s : string) : pystr := utf8_decode (bytes_of s).

(** [str(n)] and the [{n}] field of an f-string, for an [int]. *)
Definition str_int (z : Z) : pystr := py (NilZero.string_of_int (Z.to_int z)).

(** [''.join(fragments)] *)
Definition join (fragments : list pystr) : pystr := concat fragments.

(** The characters removed by [str.strip()] called without argument. *)
Definition isspace (c : N) : bool :=
  ((9 <=? c) && (c <=? 13) || (28 <=? c) && (c <=? 32)
   || (c =? 133) || (c =? 160) || (c =? 5760)
   || (8192 <=? c) && (c <=? 8202)
   || (c =? 8232) || (c =? 8233) || (c =? 8239) || (c =? 8287)
   || (c =? 12288))%N.

Fixpoint lstrip (s : pystr) : pystr :=
  match s with
  | [] => []
  | c :: t => if isspace c then lstrip t else s
  end.

Definition rstrip (s : pystr) : pystr := reverse (lstrip (reverse s)).

Definition strip (s : pystr) : pystr := rstrip (lstrip s).

(** Truth value of a string in a condition: [not s] holds of [''] only. *)
Definition falsy (s : pystr) : bool :=
  match s with [] => true | _ :: _ => false end.

End PyStr.

Import PyStr.

(** ** Python sequences *)

(** [l[i]] for an [int] index: negative indices count from the end, and an
    index outside [-len(l) .. len(l) - 1] raises [IndexError] (here [None]). *)
Definition py_index {A} (l : list A) (i : Z) : option A :=
  if (0 <=? i)%Z then l !! Z.to_nat i
  else if (- Z.of_nat (length l) <=? i)%Z then l !! Z.to_nat (Z.of_nat (length l) + i)
  else None.

(** [l[:k]] for [k > 0]. *)
Definition slice_to {A} (l : list A) (k : Z) : list A := take (Z.to_nat k) l.

(** [l[-k:]] for [k > 0]: the last [k] elements, or all of [l] when it is
    shorter. *)
Definition slice_last {A} (k : nat) (l : list A) : list A :=
  drop (length l - k) l.

(** ** Exceptions and results *)

Inductive exn :=
  | KeyError (key : string)
  | IndexError
  | OSError (detail : string)
  | JSONDecodeError
  | APIError (detail : string).

Inductive outcome (A : Type) :=
  | Returned (a : A)
  | Raised (e : exn).
Arguments Returned {A} a.
Arguments Raised {A} e.

(** ** Notebook documents *)

(** The value of a field of a cell object as [json.load] delivers it: a
    string, or a list of strings. *)
Inductive field :=
  | FStr (s : pystr)
  | FList (l : list pystr).

#[global] Instance field_eq_dec : EqDecision field.
Proof. solve_decision. Defined.

(** A cell object of the document, and the root object: the entries of the
    root whose value is a list of cell objects ([parse_notebook] reads no
    other entry). *)
Abbreviation raw_cell := (gmap string field).
Abbreviation notebook := (gmap string (list raw_cell)).

(** The dictionary [cell_data] built by [parse_notebook]. *)
Record cell_data := {
  cell_index : nat;      (* 'index' *)
  cell_type : field;     (* 'type' *)
  cell_source : pystr;   (* 'source' *)
  cell_id : field        (* 'id' *)
}.

(** [cell[key]]: a missing key raises [KeyError]. *)
Definition getitem {V} (d : gmap string V) (key : string) : outcome V :=
  match d !! key with
  | Some v => Returned v
  | None => Raised (KeyError key)
  end.

(** [''.join(cell['source']) if isinstance(cell['source'], list) else cell['source']] *)
Definition source_text (src : field) : pystr :=
  match src with
  | FList fragments => join fragments
  | FStr s => s
  end.

(** One iteration of the loop of [parse_notebook]. The fields are read in
    the order of the dictionary display: 'cell_type', then 'source', then
    'id' with its default. *)
Definition parse_cell (idx : nat) (cell : raw_cell) : outcome cell_data :=
  match getitem cell "cell_type" with
  | Raised e => Raised e
  | Returned ty =>
      match getitem cell "source" with
      | Raised e => Raised e
      | Returned src =>
          Returned {| cell_index := idx;
                      cell_type := ty;
                      cell_source := source_text src;
                      cell_id := default (FStr (py "cell-" ++ str_int (Z.of_nat idx)))
                                         (cell !! "id") |}
      end
  end.

(** [for idx, cell in enumerate(...)]: cells are appended until one raises. *)
Fixpoint parse_cells (idx : nat) (raw : list raw_cell) : outcome (list cell_data) :=
  match raw with
  | [] => Returned []
  | cell :: rest =>
      match parse_cell idx cell with
      | Raised e => Raised e
      | Returned cell_data =>
          match parse_cells (S idx) rest with
          | Raised e => Raised e
          | Returned cells => Returned (cell_data :: cells)
          end
      end
  end.

(** [parse_notebook] after [json.load]: the document is the loaded root
    object. *)
Definition parse_loaded (nb : notebook) : outcome (list cell_data) :=
  match getitem nb "cells" with
  | Raised e => Raised e
  | Returned raw => parse_cells 0 raw
  end.

(** ** Displayed output and generation requests *)

(** An object handed to [IPython.display.display]. *)
Inductive display_item :=
  | Markdown (text : pystr)
  | HTML (text : pystr).

(** One entry of [messages], and the keyword arguments of
    [chat.completions.create]. *)
Record message := { role : pystr; content : pystr }.
Record chat_request := { model : pystr; messages : list message }.

(** A [LearningAgent] instance: [self.model]; [self.openai] is the handle of
    the service, whose answers are the [completions_create] of the
    environment below. *)
Record LearningAgent := { agent_model : pystr }.

(** What the calls act on: the module global [_agent] of
    [notebook_helper.py], the objects displayed so far and the requests sent
    to the service so far, both oldest first. *)
Record world := {
  _agent : option LearningAgent;
  displayed : list display_item;
  requests : list chat_request
}.

(** A computation reads and updates the world, and returns or raises. *)
Definition M (A : Type) : Type := world -> outcome A * world.

Definition ret {A} (a : A) : M A := fun w => (Returned a, w).

Definition raise {A} (e : exn) : M A := fun w => (Raised e, w).

Definition bind {A B} (m : M A) (k : A -> M B) : M B :=
  fun w =>
    match m w with
    | (Returned a, w') => k a w'
    | (Raised e, w') => (Raised e, w')
    end.

Notation "x <~ m ;; k" := (bind m (fun x => k))
  (at level 100, m at next level, right associativity).
Notation "m ;;; k" := (bind m (fun _ => k))
  (at level 100, right associativity).

Definition lift {A} (o : outcome A) : M A := fun w => (o, w).

(** [display(item)] *)
Definition display (item : display_item) : M unit :=
  fun w => (Returned tt,
            {| _agent := _agent w;
               displayed := displayed w ++ [item];
               requests := requests w |}).

(** ** Standard output *)

(** A process with a terminal: the world, and the text written to
    [sys.stdout] so far. *)
Record console := { process : world; stdout : pystr }.

(** A computation that may also print. *)
Definition IO (A : Type) : Type := console -> outcome A * console.

Definition io_bind {A B} (m : IO A) (k : A -> IO B) : IO B :=
  fun c =>
    match m c with
    | (Returned a, c') => k a c'
    | (Raised e, c') => (Raised e, c')
    end.

Notation "x <<~ m ;; k" := (io_bind m (fun x => k))
  (at level 100, m at next level, right associativity).
Notation "m ;;> k" := (io_bind m (fun _ => k))
  (at level 100, right associativity).

(** A computation on the world, run in the process of the console. *)
Definition in_process {A} (m : M A) : IO A :=
  fun c =>
    (fst (m (process c)),
     {| process := snd (m (process c)); stdout := stdout c |}).

(** [print(s)]: the text and a line break. *)
Definition print (s : pystr) : IO unit :=
  fun c => (Returned tt,
            {| process := process c; stdout := stdout c ++ s ++ [10%N] |}).

(** [s * n] *)
Definition str_mul (s : pystr) (n : nat) : pystr := concat (replicate n s).

(** ** learning_agent.py *)

Module learning_agent.

(** The dictionary returned by [analyze_cell]: [{"error": ...}],
    [{"info": ...}], or the four entries of a completed analysis. *)
Inductive analysis :=
  | error (msg : pystr)
  | info (msg : pystr)
  | analysed (cell_index : Z) (cell_content explanation experiments : pystr).

(** The text that closes every context line. *)
Definition truncation_marker : pystr := py "...".

(** [{cell['source'][:100]}...]: the part of a context line that stands for
    the cell. *)
Definition snippet (cell : cell_data) : pystr :=
  take 100 (cell_source cell) ++ truncation_marker.

(** [f"Cell {cell['index']}: {cell['source'][:100]}...\n"] *)
Definition context_line (cell : cell_data) : pystr :=
  py "Cell " ++ str_int (Z.of_nat (cell_index cell)) ++ py ": "
    ++ snippet cell ++ py "
".

(** [cell['type'] == 'code'] *)
Definition is_code (cell : cell_data) : bool :=
  bool_decide (cell_type cell = FStr (py "code")).

(** The body of the loop over [context_cells[-3:]]. *)
Definition context_step (context : pystr) (cell : cell_data) : pystr :=
  if is_code cell then context ++ context_line cell else context.

(** The string [context] of [explain_concept]; [context_cells] is [None]
    when the caller passes [None]. *)
Definition build_context (context_cells : option (list cell_data)) : pystr :=
  match context_cells with
  | Some ((_ :: _) as cells) =>
      fold_left context_step (slice_last 3 cells)
                (py "Previous cells executed:
")
  | _ => []
  end.

(** The prompt of [explain_concept]. *)
Definition explain_prompt (context : pystr) (cell_index : Z) (cell_content : pystr) : pystr :=
  py "You are a patient, expert programming tutor helping a student understand Jupyter notebook code.

" ++ context ++ py "

Current cell (Cell " ++ str_int cell_index ++ py "):
```python
" ++ cell_content ++ py "
```

Please explain this cell by covering:
1. **What it does**: A clear, simple explanation of what this code accomplishes
2. **Key concepts**: The important programming or AI concepts being demonstrated
3. **Why it matters**: How this fits into the bigger picture of learning about AI agents
4. **Connection**: How this builds on or relates to previous cells

Keep your explanation clear, concise, and encouraging. Use analogies when helpful.
Format your response in markdown.
".

(** The prompt of [suggest_experiments]. *)
Definition experiments_prompt (cell_content : pystr) : pystr :=
  py "You are a creative programming tutor who believes students learn best by experimenting.

Here's a code cell from a Jupyter notebook:

```python
" ++ cell_content ++ py "
```

Please suggest 3-5 specific experiments the student can try to deepen their understanding. For each experiment:
1. Describe what to modify in the code
2. Predict what will happen
3. Explain what concept this experiment demonstrates

Make the experiments progressively more challenging:
- Start with simple modifications (change a value, remove a parameter)
- Progress to more complex changes (restructure code, add features)

Format each experiment like this:

### Experiment N: [Catchy title]
**What to do:** [Specific code change]
**Prediction:** [What will happen]
**Why it matters:** [What concept this teaches]
**Code snippet:**
```python
[Modified code]
```

Be specific with code examples. Format your response in markdown.
".

Section Environment.

(** [open] followed by [json.load]: the loaded root object, or the exception
    raised for a missing file or invalid JSON. *)
Variable json_load_file : pystr -> outcome notebook.

(** The service: [response.choices[0].message.content] for a request, given
    the requests it has received before, or the exception raised. *)
Variable completions_create : list chat_request -> chat_request -> outcome pystr.

(** [LearningAgent()] *)
Definition init : LearningAgent := {| agent_model := py "gpt-4o" |}.

Definition parse_notebook (self : LearningAgent) (notebook_path : pystr) : M (list cell_data) :=
  nb <~ lift (json_load_file notebook_path);;
  lift (parse_loaded nb).

(** [self.openai.chat.completions.create(model=..., messages=...)] followed
    by [response.choices[0].message.content]. *)
Definition create (request : chat_request) : M pystr :=
  fun w => (completions_create (requests w) request,
            {| _agent := _agent w;
               displayed := displayed w;
               requests := requests w ++ [request] |}).

Definition user_request (self : LearningAgent) (prompt : pystr) : chat_request :=
  {| model := agent_model self;
     messages := [ {| role := py "user"; content := prompt |} ] |}.

Definition explain_concept (self : LearningAgent) (cell_content : pystr)
    (cell_index : Z) (context_cells : option (list cell_data)) : M pystr :=
  let context := build_context context_cells in
  let prompt := explain_prompt context cell_index cell_content in
  create (user_request self prompt).

Definition suggest_experiments (self : LearningAgent) (cell_content : pystr)
    (cell_index : Z) : M pystr :=
  let prompt := experiments_prompt cell_content in
  create (user_request self prompt).

Definition analyze_cell (self : LearningAgent) (notebook_path : pystr)
    (cell_index : Z) : M analysis :=
  cells <~ parse_notebook self notebook_path;;
  if (Z.of_nat (length cells) <=? cell_index)%Z then
    ret (error (py "Cell index " ++ str_int cell_index
                ++ py " out of range. Notebook has "
                ++ str_int (Z.of_nat (length cells)) ++ py " cells."))
  else
    match py_index cells cell_index with
    | None => raise IndexError
    | Some target_cell =>
        if negb (is_code target_cell) then
          ret (info (py "Cell " ++ str_int cell_index
                     ++ py " is a markdown cell, not code."))
        else
          let context_cells :=
            if (0 <? cell_index)%Z then slice_to cells cell_index else [] in
          explanation <~ explain_concept self (cell_source target_cell)
                           cell_index (Some context_cells);;
          experiments <~ suggest_experiments self (cell_source target_cell)
                           cell_index;;
          ret (analysed cell_index (cell_source target_cell)
                        explanation experiments)
    end.

(** [result.get('error') or result.get('info')] for a result that has one
    of the two keys: an empty error message is falsy, and the value is then
    [None], printed as such. *)
Definition error_or_info (error_msg info_msg : option pystr) : pystr :=
  match error_msg, info_msg with
  | Some msg, _ => if falsy msg then py "None" else msg
  | None, Some msg => msg
  | None, None => py "None"
  end.

Definition interactive_session (self : LearningAgent) (notebook_path : pystr)
    (cell_index : Z) : IO unit :=
  print (py "
" ++ str_mul (py "=") 80);;>
  print (py "  Learning Companion - Analyzing Cell " ++ str_int cell_index);;>
  print (str_mul (py "=") 80 ++ py "
");;>
  result <<~ in_process (analyze_cell self notebook_path cell_index);;
  match result with
  | error msg => print (error_or_info (Some msg) None)
  | info msg => print (error_or_info None (Some msg))
  | analysed _ cell_content explanation experiments =>
      print (py "📚 CELL CODE:
");;>
      print (py "```python");;>
      print cell_content;;>
      print (py "```
");;>
      print (str_mul (py "─") 80);;>
      print (py "
🎓 CONCEPT EXPLANATION
");;>
      print explanation;;>
      print (py "
" ++ str_mul (py "─") 80);;>
      print (py "
🔬 HANDS-ON EXPERIMENTS
");;>
      print experiments;;>
      print (py "
" ++ str_mul (py "=") 80 ++ py "
")
  end.

End Environment.

End learning_agent.

(** ** notebook_helper.py *)

Module notebook_helper.

(** A value bound in the user namespace that can be subscripted by an
    execution count: a list, or a dictionary keyed by [int]. *)
Inductive ns_value :=
  | NsList (l : list pystr)
  | NsDict (d : gmap Z pystr).

(** [ipython.history_manager]; [input_hist_parsed] is [None] when the object
    has no such attribute. *)
Record HistoryManager := { input_hist_parsed : option (list pystr) }.

(** The object returned by [get_ipython()]. *)
Record InteractiveShell := {
  execution_count : option Z;
  history_manager : HistoryManager;
  user_ns : gmap string ns_value
}.

(** [v[i]] *)
Definition subscript (v : ns_value) (i : Z) : outcome pystr :=
  match v with
  | NsList l =>
      match py_index l i with
      | Some s => Returned s
      | None => Raised IndexError
      end
  | NsDict d =>
      match d !! i with
      | Some s => Returned s
      | None => Raised (KeyError (NilZero.string_of_int (Z.to_int i)))
      end
  end.

(** The body of the [try] statement shared by the three entry points. *)
Definition try_previous (ipython : InteractiveShell) (prev_execution : Z) : outcome pystr :=
  match input_hist_parsed (history_manager ipython) with
  | Some hist =>
      if (prev_execution <? Z.of_nat (length hist))%Z
      then subscript (NsList hist) prev_execution
      else Returned []
  | None =>
      if bool_decide (is_Some (user_ns ipython !! "In"))
      then subscript (default (NsDict ∅) (user_ns ipython !! "In")) prev_execution
      else Returned []
  end.

(** The [try] statement with its handler [except (IndexError, KeyError)]. *)
Definition previous_cell (ipython : InteractiveShell) (prev_execution : Z) : outcome pystr :=
  match try_previous ipython prev_execution with
  | Raised IndexError => Returned []
  | Raised (KeyError _) => Returned []
  | other => other
  end.

(** [not prev_cell or not prev_cell.strip()] *)
Definition blank (prev_cell : pystr) : bool :=
  falsy prev_cell || falsy (strip prev_cell).

Definition warn_explain : pystr := py "⚠️ Need at least one previous cell to explain.".
Definition warn_experiments : pystr :=
  py "⚠️ Need at least one previous cell to generate experiments for.".
Definition warn_teach : pystr := py "⚠️ Need at least one previous cell to teach.".
Definition warn_empty : pystr := py "⚠️ Previous cell appears to be empty.".

Definition rule_green : pystr := py "<hr style='border: 2px solid #4CAF50; margin: 20px 0;'>".
Definition rule_orange : pystr := py "<hr style='border: 2px solid #FF9800; margin: 20px 0;'>".

Definition banner : pystr := py "
        <div style='background: linear-gradient(135deg, #667eea 0%, #764ba2 100%);
                    padding: 20px; border-radius: 10px; margin: 20px 0;'>
            <h1 style='color: white; margin: 0;'>📚 Learning Companion Session</h1>
        </div>
    ".

Definition tip : pystr := py "
        <div style='background: #e8f5e9; padding: 15px; border-radius: 5px;
                    border-left: 4px solid #4CAF50; margin: 20px 0;'>
            <strong>💡 Tip:</strong> Try the experiments in new cells below.
            Learning by doing is the most effective way to master these concepts!
        </div>
    ".

(** [Markdown("```python\n" + code + "\n```")] *)
Definition code_block (code : pystr) : display_item :=
  Markdown (py "```python
" ++ code ++ py "
```").

Section Environment.

Variable completions_create : list chat_request -> chat_request -> outcome pystr.

(** [get_agent()]: the agent is created on first use and kept in [_agent]. *)
Definition get_agent : M LearningAgent :=
  fun w =>
    match _agent w with
    | Some agent => (Returned agent, w)
    | None =>
        (Returned learning_agent.init,
         {| _agent := Some learning_agent.init;
            displayed := displayed w;
            requests := requests w |})
    end.

Definition explain_this_cell (ipython : InteractiveShell) : M unit :=
  agent <~ get_agent;;
  match execution_count ipython with
  | None => display (Markdown warn_explain)
  | Some current_execution_count =>
  if (current_execution_count <=? 1)%Z then
    display (Markdown warn_explain)
  else
    let prev_execution := (current_execution_count - 1)%Z in
    prev_cell <~ lift (previous_cell ipython prev_execution);;
    if blank prev_cell then
      display (Markdown warn_empty)
    else
      let clean_code := strip prev_cell in
      display (HTML rule_green);;;
      display (Markdown (py "# 🎓 Understanding This Code"));;;
      display (code_block clean_code);;;
      explanation <~ learning_agent.explain_concept completions_create
                       agent clean_code prev_execution None;;
      display (Markdown explanation)
  end.

Definition experiments_for_this_cell (ipython : InteractiveShell) : M unit :=
  agent <~ get_agent;;
  match execution_count ipython with
  | None => display (Markdown warn_experiments)
  | Some current_execution_count =>
  if (current_execution_count <=? 1)%Z then
    display (Markdown warn_experiments)
  else
    let prev_execution := (current_execution_count - 1)%Z in
    prev_cell <~ lift (previous_cell ipython prev_execution);;
    if blank prev_cell then
      display (Markdown warn_empty)
    else
      let clean_code := strip prev_cell in
      display (HTML rule_orange);;;
      display (Markdown (py "# 🔬 Experiments to Try"));;;
      experiments <~ learning_agent.suggest_experiments completions_create
                       agent clean_code prev_execution;;
      display (Markdown experiments)
  end.

Definition teach_me_this_cell (ipython : InteractiveShell) : M unit :=
  agent <~ get_agent;;
  match execution_count ipython with
  | None => display (Markdown warn_teach)
  | Some current_execution_count =>
  if (current_execution_count <=? 1)%Z then
    display (Markdown warn_teach)
  else
    let prev_execution := (current_execution_count - 1)%Z in
    prev_cell <~ lift (previous_cell ipython prev_execution);;
    if blank prev_cell then
      display (Markdown warn_empty)
    else
      let clean_code := strip prev_cell in
      display (HTML banner);;;
      display (Markdown (py "## 📝 Your Code"));;;
      display (code_block clean_code);;;
      display (HTML rule_green);;;
      display (Markdown (py "## 🎓 Concept Explanation"));;;
      explanation <~ learning_agent.explain_concept completions_create
                       agent clean_code prev_execution None;;
      display (Markdown explanation);;;
      display (HTML rule_orange);;;
      display (Markdown (py "## 🔬 Hands-On Experiments"));;;
      experiments <~ learning_agent.suggest_experiments completions_create
                       agent clean_code prev_execution;;
      display (Markdown experiments);;;
      display (HTML tip)
  end.

Definition explain_code (code_string : pystr) : M unit :=
  agent <~ get_agent;;
  display (HTML rule_green);;;
  display (Markdown (py "# 🎓 Code Explanation"));;;
  display (code_block code_string);;;
  explanation <~ learning_agent.explain_concept completions_create
                   agent code_string 0 None;;
  display (Markdown explanation).

Definition suggest_experiments (code_string : pystr) : M unit :=
  agent <~ get_agent;;
  display (HTML rule_orange);;;
  display (Markdown (py "# 🔬 Experiments to Try"));;;
  experiments <~ learning_agent.suggest_experiments completions_create
                   agent code_string 0;;
  display (Markdown experiments).

End Environment.

(** Convenience shortcuts. *)
Definition explain := explain_this_cell.
Definition experiments := experiments_for_this_cell.
Definition teach := teach_me_this_cell.

End notebook_helper.

(** * Sample inputs *)

Module Samples.

Import learning_agent notebook_helper.

(** A fresh process: no agent yet, nothing displayed, nothing requested. *)
Definition fresh : world := {| _agent := None; displayed := []; requests := [] |}.

(** A service that answers every request with the same text. *)
Definition steady (past : list chat_request) (request : chat_request) : outcome pystr :=
  Returned (py "ok").

(** A service that is down: every request raises. *)
Definition down (past : list chat_request) (request : chat_request) : outcome pystr :=
  Raised (APIError "service unavailable").

Definition code_cell (idx : nat) (src : string) : cell_data :=
  {| cell_index := idx; cell_type := FStr (py "code");
     cell_source := py src; cell_id := FStr (py "cell-" ++ str_int (Z.of_nat idx)) |}.

Definition markdown_cell (idx : nat) (src : string) : cell_data :=
  {| cell_index := idx; cell_type := FStr (py "markdown");
     cell_source := py src; cell_id := FStr (py "cell-" ++ str_int (Z.of_nat idx)) |}.

(** Three code cells followed by a markdown cell. *)
Definition three_code_one_markdown : list cell_data :=
  [code_cell 0 "a = 1"; code_cell 1 "b = 2"; code_cell 2 "c = 3";
   markdown_cell 3 "# notes"].

Definition raw_code (src : field) : raw_cell :=
  {[ "cell_type" := FStr (py "code"); "source" := src ]}.

Definition raw_markdown (src : field) : raw_cell :=
  {[ "cell_type" := FStr (py "markdown"); "source" := src ]}.

(** A document with the given cells, and a file system that holds it under
    every path. *)
Definition document (raw : list raw_cell) : notebook := {[ "cells" := raw ]}.

Definition disk (nb : notebook) (path : pystr) : outcome notebook := Returned nb.

(** A live session with the given counter and parsed input history. *)
Definition session (count : option Z) (hist : list pystr) : InteractiveShell :=
  {| execution_count := count;
     history_manager := {| input_hist_parsed := Some hist |};
     user_ns := ∅ |}.

(** A live session whose history is only reachable through [In]. *)
Definition session_In (count : option Z) (In : ns_value) : InteractiveShell :=
  {| execution_count := count;
     history_manager := {| input_hist_parsed := None |};
     user_ns := {[ "In" := In ]} |}.

End Samples.

(** * Vocabulary of the properties *)

Module Spec.

Import learning_agent notebook_helper.

(** The agent that [get_agent] returns in a world. *)
Definition agent_of (w : world) : LearningAgent :=
  default learning_agent.init (_agent w).

(** The world once the agent exists, once [item] is displayed, and once
    [request] is sent. *)
Definition with_agent (w : world) : world :=
  {| _agent := Some (agent_of w);
     displayed := displayed w;
     requests := requests w |}.

Definition shown (item : display_item) (w : world) : world :=
  {| _agent := _agent w;
     displayed := displayed w ++ [item];
     requests := requests w |}.

Definition sent (request : chat_request) (w : world) : world :=
  {| _agent := _agent w;
     displayed := displayed w;
     requests := requests w ++ [request] |}.

(** The world after a call that obtained the agent, displayed [items] and
    sent [new] requests. *)
Definition after (w : world) (items : list display_item)
    (new : list chat_request) : world :=
  {| _agent := Some (agent_of w);
     displayed := displayed w ++ items;
     requests := requests w ++ new |}.

(** The history consulted for an ordinal has no entry for it: the parsed
    input history when the session has one, else the value bound to [In]. *)
Definition history_lacks (ipython : InteractiveShell) (ordinal : Z) : Prop :=
  match input_hist_parsed (history_manager ipython) with
  | Some hist => hist !! Z.to_nat ordinal = None
  | None =>
      match user_ns ipython !! "In" with
      | None => True
      | Some (NsList l) => l !! Z.to_nat ordinal = None
      | Some (NsDict d) => d !! ordinal = None
      end
  end.

(** The entry the resolver reads for a non-negative ordinal, if any. *)
Definition history_entry (ipython : InteractiveShell) (ordinal : Z) : option pystr :=
  match input_hist_parsed (history_manager ipython) with
  | Some hist => hist !! Z.to_nat ordinal
  | None =>
      match user_ns ipython !! "In" with
      | None => None
      | Some (NsList l) => l !! Z.to_nat ordinal
      | Some (NsDict d) => d !! ordinal
      end
  end.

(** A cell object without 'cell_type' or without 'source'. *)
Definition incomplete (cell : raw_cell) : Prop :=
  cell !! "cell_type" = None \/ cell !! "source" = None.

(** A root object without 'cells', or with an incomplete cell. *)
Definition malformed (nb : notebook) : Prop :=
  match nb !! "cells" with
  | None => True
  | Some raw => Exists incomplete raw
  end.

(** [split] is [plain] with its source, a string, given as a list of
    fragments of the same text. *)
Definition same_text_split (plain split : raw_cell) : Prop :=
  exists (s : pystr) (fragments : list pystr),
    plain !! "source" = Some (FStr s)
    /\ join fragments = s
    /\ split = <["source" := FList fragments]> plain.

(** A key that [parse_notebook] reads in a cell object. *)
Definition cell_key (key : string) : Prop :=
  key = "cell_type" \/ key = "source" \/ key = "id".

(** [extended] is [cell] with one more entry, under a key that
    [parse_notebook] does not read. *)
Definition extra_entry (cell extended : raw_cell) : Prop :=
  exists (key : string) (v : field),
    ~ cell_key key /\ extended = <[key := v]> cell.

(** The console once [text] is printed. *)
Definition printed (text : pystr) (c : console) : console :=
  {| process := process c; stdout := stdout c ++ text ++ [10%N] |}.

(** The output [out] followed by the arguments of successive calls of
    [print], each with its line break. *)
Definition with_prints (out : pystr) (args : list pystr) : pystr :=
  out ++ concat (map (fun s => s ++ [10%N]) args).

(** The arguments of the three calls of [print] that open an interactive
    session. *)
Definition header_prints (cell_index : Z) : list pystr :=
  [ py "
" ++ str_mul (py "=") 80;
    py "  Learning Companion - Analyzing Cell " ++ str_int cell_index;
    str_mul (py "=") 80 ++ py "
" ].

(** [w'] is [w] after calls that obtained the agent of [w], displayed
    some objects and sent at most two requests, each with the model of that
    agent and a single message of role [user]. *)
Definition grows (w w' : world) : Prop :=
  exists (items : list display_item) (new : list chat_request),
    w' = after w items new
    /\ length new <= 2
    /\ Forall (fun r =>
                 exists prompt : pystr,
                   r = {| model := agent_model (agent_of w);
                          messages := [ {| role := py "user";
                                           content := prompt |} ] |}) new.

End Spec.

(** * Properties *)

Import learning_agent notebook_helper Spec.

#[local] Arguments py : simpl never.
#[local] Arguments explain_prompt : simpl never.
#[local] Arguments experiments_prompt : simpl never.

(** ** Strings *)

Lemma lstrip_nil_iff (s : pystr) : lstrip s = [] <-> forallb isspace s = true.
Proof.
  induction s as [|c t IH]; simpl; [tauto|].
  destruct (isspace c); simpl; [exact IH|].
  split; discriminate.
Qed.

Lemma lstrip_all_space (s : pystr) :
  forallb isspace (lstrip s) = true -> forallb isspace s = true.
Proof.
  induction s as [|c t IH]; simpl; [tauto|].
  destruct (isspace c) eqn:Hc; simpl; [exact IH|].
  rewrite Hc. discriminate.
Qed.

Lemma forallb_reverse (f : N -> bool) (s : pystr) :
  forallb f (reverse s) = forallb f s.
Proof.
  induction s as [|c t IH]; [reflexivity|].
  rewrite reverse_cons, forallb_app, IH. simpl.
  rewrite andb_true_r. apply andb_comm.
Qed.

(** [s.strip()] is empty exactly when [s] is empty or all whitespace. *)
Lemma strip_nil_iff (s : pystr) : strip s = [] <-> forallb isspace s = true.
Proof.
  unfold strip, rstrip. split.
  - intros H. apply lstrip_all_space.
    rewrite <- forallb_reverse. apply lstrip_nil_iff.
    apply (f_equal reverse) in H. rewrite reverse_involutive in H. exact H.
  - intros H. apply lstrip_nil_iff in H. rewrite H. reflexivity.
Qed.

Lemma blank_iff (s : pystr) : blank s = true <-> strip s = [].
Proof.
  unfold blank. destruct s as [|c t]; simpl; [split; reflexivity|].
  destruct (strip (c :: t)); simpl; split; congruence.
Qed.

(** ** The context of [explain_concept] *)

(** The loop adds one line per code cell, in order, and nothing else. *)
Lemma fold_context_step (cells : list cell_data) (context : pystr) :
  fold_left context_step cells context
  = context ++ concat (map context_line (List.filter is_code cells)).
Proof.
  revert context. induction cells as [|cell rest IH]; intros context; simpl.
  - by rewrite app_nil_r.
  - rewrite IH. unfold context_step.
    destruct (is_code cell); simpl; [by rewrite <- app_assoc | done].
Qed.

Lemma build_context_lines (cell : cell_data) (rest : list cell_data) :
  build_context (Some (cell :: rest))
  = py "Previous cells executed:
" ++ concat (map context_line
               (List.filter is_code (slice_last 3 (cell :: rest)))).
Proof. unfold build_context. apply fold_context_step. Qed.

(** The code cells of a suffix are a suffix of the code cells. *)
Lemma filter_drop_suffix (n : nat) (cells : list cell_data) :
  List.filter is_code (drop n cells)
  = slice_last (length (List.filter is_code (drop n cells)))
               (List.filter is_code cells).
Proof.
  unfold slice_last.
  assert (List.filter is_code cells
          = List.filter is_code (take n cells)
              ++ List.filter is_code (drop n cells)) as ->
    by (by rewrite <- List.filter_app, take_drop).
  rewrite length_app.
  replace (_ + _ - _) with (length (List.filter is_code (take n cells))) by lia.
  by rewrite drop_app_length.
Qed.

Lemma filter_length_le (cells : list cell_data) :
  length (List.filter is_code cells) <= length cells.
Proof. apply List.filter_length_le. Qed.

Lemma slice_last_length {A} (k : nat) (l : list A) :
  length (slice_last k l) <= k.
Proof. unfold slice_last. rewrite length_drop. lia. Qed.

Lemma filter_all {A} (f : A -> bool) (l : list A) :
  forallb f l = true -> List.filter f l = l.
Proof.
  induction l as [|x l IH]; simpl; [done|].
  destruct (f x); simpl; [|done]. intros H. by rewrite IH.
Qed.

(** ** C1: snippets of the context *)

(** C1, as stated, fails: the cell [x = 1] has a source of 5 characters, and
    its snippet is [x = 1...], not the source verbatim. *)
Lemma C1_short_source_gets_marker :
  let cell := Samples.code_cell 0 "x = 1" in
  length (cell_source cell) <= 100
  /\ snippet cell = py "x = 1..."
  /\ snippet cell <> cell_source cell
  /\ build_context (Some [cell]) = py "Previous cells executed:
Cell 0: x = 1...
".
Proof.
  cbv zeta. split; [vm_compute; lia|].
  split; [by vm_compute|].
  split; [vm_compute; discriminate|by vm_compute].
Qed.

(** C1 (amended): every line of the context carries the first 100 characters
    of the cell's source followed by the marker [...], whatever the length of
    the source: a source of at most 100 characters appears whole, followed by
    the marker, and no snippet is longer than 100 characters plus the
    marker. *)
Theorem C1_snippet_marker_unconditional (cell : cell_data) (rest : list cell_data) :
  build_context (Some (cell :: rest))
  = py "Previous cells executed:
" ++ concat (map context_line
               (List.filter is_code (slice_last 3 (cell :: rest))))
  /\ forall c : cell_data,
       context_line c
       = py "Cell " ++ str_int (Z.of_nat (cell_index c)) ++ py ": "
           ++ snippet c ++ [10%N]
       /\ snippet c = take 100 (cell_source c) ++ py "..."
       /\ (length (cell_source c) <= 100 ->
           snippet c = cell_source c ++ py "...")
       /\ length (snippet c) <= 100 + 3.
Proof.
  split; [apply build_context_lines|].
  intros c. unfold snippet, truncation_marker.
  split; [reflexivity|]. split; [reflexivity|]. split.
  - intros H. by rewrite take_ge.
  - rewrite length_app, length_take. change (length (py "...")) with 3. lia.
Qed.

Lemma C1_snippet_marker_unconditional_witness :
  length (cell_source (Samples.code_cell 0 "x = 1")) <= 100
  /\ snippet (Samples.code_cell 0 "x = 1")
     = cell_source (Samples.code_cell 0 "x = 1") ++ py "...".
Proof.
  assert (length (cell_source (Samples.code_cell 0 "x = 1")) <= 100) as H
    by (vm_compute; lia).
  split; [exact H|].
  exact (proj1 (proj2 (proj2
    (proj2 (C1_snippet_marker_unconditional (Samples.code_cell 0 "x = 1") [])
           (Samples.code_cell 0 "x = 1")))) H).
Defined.

(** ** C2: the cells of the context *)

(** C2, as stated, fails: with three code cells followed by a markdown cell,
    the last three code cells are cells 0, 1 and 2, and the context holds
    cells 1 and 2 only. *)
Lemma C2_markdown_displaces_code :
  let cells := Samples.three_code_one_markdown in
  slice_last 3 (List.filter is_code cells)
  = [Samples.code_cell 0 "a = 1"; Samples.code_cell 1 "b = 2";
     Samples.code_cell 2 "c = 3"]
  /\ build_context (Some cells) = py "Previous cells executed:
Cell 1: b = 2...
Cell 2: c = 3...
"
  /\ build_context (Some cells)
     <> py "Previous cells executed:
" ++ concat (map context_line (slice_last 3 (List.filter is_code cells))).
Proof.
  cbv zeta. split; [by vm_compute|]. split; [by vm_compute|].
  vm_compute. discriminate.
Qed.

(** C2 (amended): the context holds the code cells found among the last
    three preceding cells of any kind, in their original order. These are the
    last [k] code cells of the sequence, where [k <= 3] is the number of code
    cells among the last three cells; they are the last three code cells
    when the last three cells are all code. *)
Theorem C2_context_of_last_three_cells (cell : cell_data) (rest : list cell_data) :
  let cells := cell :: rest in
  let k := length (List.filter is_code (slice_last 3 cells)) in
  build_context (Some cells)
  = py "Previous cells executed:
" ++ concat (map context_line (slice_last k (List.filter is_code cells)))
  /\ k <= 3
  /\ (forallb is_code (slice_last 3 cells) = true ->
      build_context (Some cells)
      = py "Previous cells executed:
" ++ concat (map context_line (slice_last 3 (List.filter is_code cells)))).
Proof.
  intros cells k.
  pose proof (build_context_lines cell rest) as Hb. fold cells in Hb.
  rewrite Hb. clear Hb.
  assert (List.filter is_code (slice_last 3 cells)
          = slice_last k (List.filter is_code cells)) as Hk
    by apply filter_drop_suffix.
  split; [by rewrite Hk|]. split.
  - unfold k. etrans; [apply filter_length_le|apply slice_last_length].
  - intros Hall. do 2 f_equal. f_equal. rewrite Hk.
    assert (k = length (slice_last 3 cells)) as Hlen
      by (unfold k; by rewrite filter_all).
    unfold slice_last in Hlen. rewrite length_drop in Hlen.
    destruct (decide (3 <= length cells)) as [Hge|Hlt].
    + by replace k with 3 by lia.
    + unfold slice_last in Hall.
      replace (length cells - 3) with 0 in Hall by lia. rewrite drop_0 in Hall.
      rewrite (filter_all _ _ Hall). unfold slice_last.
      by replace (length cells - k) with 0 by lia;
         replace (length cells - 3) with 0 by lia.
Qed.

Lemma C2_context_of_last_three_cells_witness :
  forallb is_code (slice_last 3 [Samples.code_cell 0 "a = 1"; Samples.code_cell 1 "b = 2"]) = true
  /\ build_context (Some [Samples.code_cell 0 "a = 1"; Samples.code_cell 1 "b = 2"])
     = py "Previous cells executed:
" ++ concat (map context_line
       (slice_last 3 (List.filter is_code
          [Samples.code_cell 0 "a = 1"; Samples.code_cell 1 "b = 2"]))).
Proof.
  assert (forallb is_code (slice_last 3
            [Samples.code_cell 0 "a = 1"; Samples.code_cell 1 "b = 2"]) = true)
    as H by (vm_compute; reflexivity).
  split; [exact H|].
  exact (proj2 (proj2 (C2_context_of_last_three_cells
    (Samples.code_cell 0 "a = 1") [Samples.code_cell 1 "b = 2"])) H).
Defined.

(** ** Running computations *)

Section Run.

Context {A B : Type}.
Variable completions_create : list chat_request -> chat_request -> outcome pystr.

Lemma bind_ret (a : A) (k : A -> M B) (w : world) : bind (ret a) k w = k a w.
Proof. reflexivity. Qed.

Lemma bind_lift_returned (a : A) (k : A -> M B) (w : world) :
  bind (lift (Returned a)) k w = k a w.
Proof. reflexivity. Qed.

Lemma bind_lift_raised (e : exn) (k : A -> M B) (w : world) :
  bind (lift (Raised e)) k w = (Raised e, w).
Proof. reflexivity. Qed.

Lemma bind_display (item : display_item) (k : unit -> M B) (w : world) :
  bind (display item) k w = k tt (shown item w).
Proof. reflexivity. Qed.

Lemma display_run (item : display_item) (w : world) :
  display item w = (Returned tt, shown item w).
Proof. reflexivity. Qed.

Lemma bind_create (request : chat_request) (k : pystr -> M B) (w : world) :
  bind (create completions_create request) k w
  = match completions_create (requests w) request with
    | Returned text => k text (sent request w)
    | Raised e => (Raised e, sent request w)
    end.
Proof. unfold bind, create. by destruct (completions_create _ _). Qed.

Lemma create_run (request : chat_request) (w : world) :
  create completions_create request w
  = (completions_create (requests w) request, sent request w).
Proof. reflexivity. Qed.

End Run.

Lemma bind_get_agent {B} (k : LearningAgent -> M B) (w : world) :
  bind get_agent k w = k (agent_of w) (with_agent w).
Proof.
  unfold bind, get_agent, agent_of, with_agent. by destruct w as [[a|] d r].
Qed.

Lemma with_agent_shown (item : display_item) (w : world) :
  shown item (with_agent w) = after w [item] [].
Proof.
  unfold shown, with_agent, after. cbn [_agent displayed requests].
  by rewrite (app_nil_r (requests w)).
Qed.

Lemma after_nil_requests (w : world) (items : list display_item) :
  requests (after w items []) = requests w.
Proof. cbn [after requests]. apply app_nil_r. Qed.

(** ** The live session *)

(** The handler of the [try] statement leaves no exception: the resolver
    returns the entry, or the empty string. *)
Lemma previous_cell_entry (ipython : InteractiveShell) (k : Z) :
  (0 <= k)%Z ->
  previous_cell ipython k = Returned (default [] (history_entry ipython k)).
Proof.
  intros Hk. unfold previous_cell, try_previous, history_entry, subscript, py_index.
  assert ((0 <=? k)%Z = true) as -> by lia.
  destruct (input_hist_parsed (history_manager ipython)) as [hist|].
  - destruct (k <? Z.of_nat (length hist))%Z eqn:Hlt.
    + by destruct (hist !! Z.to_nat k).
    + rewrite lookup_ge_None_2; [done|lia].
  - destruct (user_ns ipython !! "In") as [[l|d]|]; simpl; [..|done].
    + by destruct (l !! Z.to_nat k).
    + by destruct (d !! k).
Qed.

Lemma history_lacks_entry (ipython : InteractiveShell) (k : Z) :
  history_lacks ipython k <-> history_entry ipython k = None.
Proof.
  unfold history_lacks, history_entry.
  destruct (input_hist_parsed _); [done|].
  by destruct (user_ns ipython !! "In") as [[l|d]|].
Qed.

Ltac unfold_entry :=
  unfold explain_this_cell, experiments_for_this_cell, teach_me_this_cell;
  rewrite bind_get_agent; cbv beta.

Ltac run_step :=
  first
    [ rewrite bind_display
    | rewrite bind_lift_returned
    | rewrite bind_create
    | rewrite display_run
    | rewrite create_run ];
  cbv beta zeta.

(** Without a previous ordinal, each entry point displays its own warning
    and does nothing else. *)
Lemma entry_points_out_of_range
    (completions_create : list chat_request -> chat_request -> outcome pystr)
    (ipython : InteractiveShell) (w : world) :
  match execution_count ipython with
  | None => True
  | Some n => (n <= 1)%Z
  end ->
  explain_this_cell completions_create ipython w
  = (Returned tt, after w [Markdown warn_explain] [])
  /\ experiments_for_this_cell completions_create ipython w
     = (Returned tt, after w [Markdown warn_experiments] [])
  /\ teach_me_this_cell completions_create ipython w
     = (Returned tt, after w [Markdown warn_teach] []).
Proof.
  intros H. repeat split; unfold_entry;
    (destruct (execution_count ipython) as [n|];
     [assert ((n <=? 1)%Z = true) as -> by lia|]);
    by rewrite display_run, with_agent_shown.
Qed.

(** With a previous ordinal whose text is empty or blank, each entry point
    displays the warning for an empty cell and does nothing else. *)
Lemma entry_points_blank
    (completions_create : list chat_request -> chat_request -> outcome pystr)
    (ipython : InteractiveShell) (w : world) (n : Z) (prev_cell : pystr) :
  execution_count ipython = Some n ->
  (1 < n)%Z ->
  previous_cell ipython (n - 1) = Returned prev_cell ->
  blank prev_cell = true ->
  explain_this_cell completions_create ipython w
  = (Returned tt, after w [Markdown warn_empty] [])
  /\ experiments_for_this_cell completions_create ipython w
     = (Returned tt, after w [Markdown warn_empty] [])
  /\ teach_me_this_cell completions_create ipython w
     = (Returned tt, after w [Markdown warn_empty] []).
Proof.
  intros Hn Hgt Hprev Hblank. repeat split; unfold_entry;
    rewrite Hn; assert ((n <=? 1)%Z = false) as -> by lia;
    cbv zeta; rewrite Hprev, bind_lift_returned; cbv beta; rewrite Hblank;
    by rewrite display_run, with_agent_shown.
Qed.

(** The requests of an entry point are about the stripped text of the
    previous cell. *)
Lemma entry_points_requests
    (completions_create : list chat_request -> chat_request -> outcome pystr)
    (ipython : InteractiveShell) (w : world) (n : Z) (prev_cell : pystr) :
  execution_count ipython = Some n ->
  (1 < n)%Z ->
  previous_cell ipython (n - 1) = Returned prev_cell ->
  blank prev_cell = false ->
  let explain_request :=
    user_request (agent_of w) (explain_prompt [] (n - 1) (strip prev_cell)) in
  let experiments_request :=
    user_request (agent_of w) (experiments_prompt (strip prev_cell)) in
  requests (snd (explain_this_cell completions_create ipython w))
  = requests w ++ [explain_request]
  /\ requests (snd (experiments_for_this_cell completions_create ipython w))
     = requests w ++ [experiments_request]
  /\ (requests (snd (teach_me_this_cell completions_create ipython w))
      = requests w ++ [explain_request]
      \/ requests (snd (teach_me_this_cell completions_create ipython w))
         = requests w ++ [explain_request; experiments_request]).
Proof.
  intros Hn Hgt Hprev Hblank explain_request experiments_request.
  subst explain_request experiments_request.
  split; [|split]; unfold_entry;
    rewrite Hn; assert ((n <=? 1)%Z = false) as -> by lia;
    cbv zeta; rewrite Hprev, bind_lift_returned; cbv beta; rewrite Hblank;
    cbv zeta;
    unfold learning_agent.explain_concept, learning_agent.suggest_experiments;
    cbv zeta; repeat run_step.
  - destruct (completions_create _ _); reflexivity.
  - destruct (completions_create _ _); reflexivity.
  - destruct (completions_create _ _); [|left; reflexivity].
    repeat run_step. right.
    destruct (completions_create _ _); repeat run_step;
      cbn [snd requests shown sent with_agent];
      rewrite <- app_assoc; reflexivity.
Qed.

Lemma blank_false_iff (s : pystr) :
  blank s = false <-> forallb isspace s = false.
Proof.
  pose proof (blank_iff s) as Hb. pose proof (strip_nil_iff s) as Hs.
  destruct (blank s), (forallb isspace s); intuition congruence.
Qed.

(** ** C3: blank sources *)

(** C3, as stated, fails on the stored-document path: [analyze_cell] on a
    code cell of three spaces sends both requests. *)
Lemma C3_stored_blank_cell_is_sent :
  let nb := Samples.document [Samples.raw_code (FStr (py "   "))] in
  let run := analyze_cell (Samples.disk nb) Samples.steady init
               (py "lab.ipynb") 0 Samples.fresh in
  forallb isspace (py "   ") = true
  /\ strip (py "   ") = []
  /\ fst run = Returned (analysed 0 (py "   ") (py "ok") (py "ok"))
  /\ requests (snd run)
     = [user_request init (explain_prompt [] 0 (py "   "));
        user_request init (experiments_prompt (py "   "))].
Proof. cbv zeta. repeat split; by vm_compute. Qed.

(** C3 (amended): on the live-session entry points ([explain_this_cell],
    [experiments_for_this_cell], [teach_me_this_cell]) the text of the
    previous cell reaches prompt composition only when it is not empty after
    stripping, and it is the stripped text that is sent; when the text is
    empty or all whitespace, the call displays the warning for an empty cell
    and sends no request. *)
Theorem C3_live_source_checked
    (completions_create : list chat_request -> chat_request -> outcome pystr)
    (entry : (list chat_request -> chat_request -> outcome pystr) ->
             InteractiveShell -> M unit)
    (ipython : InteractiveShell) (w : world) :
  entry = explain_this_cell \/ entry = experiments_for_this_cell
  \/ entry = teach_me_this_cell ->
  (forall (n : Z) (prev_cell : pystr),
     execution_count ipython = Some n -> (1 < n)%Z ->
     previous_cell ipython (n - 1) = Returned prev_cell ->
     forallb isspace prev_cell = true ->
     entry completions_create ipython w
     = (Returned tt, after w [Markdown warn_empty] [])
     /\ requests (after w [Markdown warn_empty] []) = requests w)
  /\ exists new : list chat_request,
       requests (snd (entry completions_create ipython w)) = requests w ++ new
       /\ (new = []
           \/ exists (n : Z) (prev_cell : pystr),
                execution_count ipython = Some n
                /\ previous_cell ipython (n - 1) = Returned prev_cell
                /\ forallb isspace prev_cell = false
                /\ strip prev_cell <> []
                /\ Forall (fun r =>
                     r = user_request (agent_of w)
                           (explain_prompt [] (n - 1) (strip prev_cell))
                     \/ r = user_request (agent_of w)
                             (experiments_prompt (strip prev_cell))) new).
Proof.
  intros Hentry. split.
  - intros n prev_cell Hn Hgt Hprev Hspace.
    split; [|apply after_nil_requests].
    assert (blank prev_cell = true) as Hblank
      by (apply blank_iff, strip_nil_iff, Hspace).
    destruct (entry_points_blank completions_create ipython w n prev_cell
                Hn Hgt Hprev Hblank) as (He & Hx & Ht).
    destruct Hentry as [->|[->| ->]]; assumption.
  - destruct (execution_count ipython) as [n|] eqn:Hn.
    2: { exists []. split; [|by left].
         destruct (entry_points_out_of_range completions_create ipython w)
           as (He & Hx & Ht); [by rewrite Hn|].
         destruct Hentry as [->|[->| ->]];
           rewrite ?He, ?Hx, ?Ht; reflexivity. }
    destruct (decide (n <= 1)%Z) as [Hle|Hgt].
    { exists []. split; [|by left].
      destruct (entry_points_out_of_range completions_create ipython w)
        as (He & Hx & Ht); [by rewrite Hn|].
      destruct Hentry as [->|[->| ->]];
        rewrite ?He, ?Hx, ?Ht; reflexivity. }
    assert (1 < n)%Z as Hlt by lia.
    pose proof (previous_cell_entry ipython (n - 1) ltac:(lia)) as Hprev.
    set (prev_cell := default [] (history_entry ipython (n - 1))) in Hprev.
    destruct (blank prev_cell) eqn:Hblank.
    { exists []. split; [|by left].
      destruct (entry_points_blank completions_create ipython w n prev_cell
                  Hn Hlt Hprev Hblank) as (He & Hx & Ht).
      destruct Hentry as [->|[->| ->]];
        rewrite ?He, ?Hx, ?Ht; reflexivity. }
    destruct (entry_points_requests completions_create ipython w n prev_cell
                Hn Hlt Hprev Hblank) as (He & Hx & Ht).
    assert (forallb isspace prev_cell = false) as Hspace
      by (apply blank_false_iff; exact Hblank).
    assert (strip prev_cell <> []) as Hstrip
      by (intros E; apply blank_iff in E; congruence).
    assert (forall new : list chat_request,
              Forall (fun r =>
                r = user_request (agent_of w)
                      (explain_prompt [] (n - 1) (strip prev_cell))
                \/ r = user_request (agent_of w)
                        (experiments_prompt (strip prev_cell))) new ->
              new = []
              \/ exists (n0 : Z) (prev_cell0 : pystr),
                   Some n = Some n0
                   /\ previous_cell ipython (n0 - 1) = Returned prev_cell0
                   /\ forallb isspace prev_cell0 = false
                   /\ strip prev_cell0 <> []
                   /\ Forall (fun r =>
                        r = user_request (agent_of w)
                              (explain_prompt [] (n0 - 1) (strip prev_cell0))
                        \/ r = user_request (agent_of w)
                                (experiments_prompt (strip prev_cell0))) new)
      as Hnew.
    { intros new Hall. right. exists n, prev_cell.
      split; [reflexivity|]. split; [exact Hprev|]. split; [exact Hspace|].
      split; [exact Hstrip|exact Hall]. }
    destruct Hentry as [->|[->| ->]].
    + eexists. split; [exact He|]. apply Hnew.
      apply Forall_cons_2; [left; reflexivity|apply Forall_nil_2].
    + eexists. split; [exact Hx|]. apply Hnew.
      apply Forall_cons_2; [right; reflexivity|apply Forall_nil_2].
    + destruct Ht as [Ht|Ht]; (eexists; split; [exact Ht|]); apply Hnew.
      * apply Forall_cons_2; [left; reflexivity|apply Forall_nil_2].
      * apply Forall_cons_2; [left; reflexivity|].
        apply Forall_cons_2; [right; reflexivity|apply Forall_nil_2].
Qed.

Lemma C3_live_source_checked_witness :
  teach_me_this_cell Samples.steady
    (Samples.session (Some 2%Z) [py ""; py "  "]) Samples.fresh
  = (Returned tt, after Samples.fresh [Markdown warn_empty] []).
Proof.
  exact (proj1 (proj1 (C3_live_source_checked Samples.steady teach_me_this_cell
           (Samples.session (Some 2%Z) [py ""; py "  "]) Samples.fresh
           (or_intror (or_intror eq_refl)))
         2%Z (py "  ") eq_refl eq_refl eq_refl eq_refl)).
Defined.

(** ** C7: a missing history entry *)

(** C7: the resolver reads the parsed input history when the session has
    one and the value bound to [In] otherwise; a miss in either (index out of
    range, key absent, no [In] at all) gives the empty string, never an
    exception. So in a session whose history lacks the entry for the ordinal
    before the current one, each live entry point displays one warning and
    sends no request. *)
Theorem C7_missing_entry_warns
    (completions_create : list chat_request -> chat_request -> outcome pystr)
    (ipython : InteractiveShell) (w : world) (n : Z) :
  execution_count ipython = Some n ->
  history_lacks ipython (n - 1) ->
  (forall k : Z, (0 <= k)%Z ->
     previous_cell ipython k = Returned (default [] (history_entry ipython k)))
  /\ (forall (k : Z) (hist : list pystr), (0 <= k)%Z ->
        input_hist_parsed (history_manager ipython) = Some hist ->
        previous_cell ipython k = Returned (default [] (hist !! Z.to_nat k)))
  /\ (forall k : Z, (0 <= k)%Z ->
        input_hist_parsed (history_manager ipython) = None ->
        previous_cell ipython k
        = Returned match user_ns ipython !! "In" with
                   | Some (NsList l) => default [] (l !! Z.to_nat k)
                   | Some (NsDict d) => default [] (d !! k)
                   | None => []
                   end)
  /\ ((1 < n)%Z ->
      explain_this_cell completions_create ipython w
      = (Returned tt, after w [Markdown warn_empty] [])
      /\ experiments_for_this_cell completions_create ipython w
         = (Returned tt, after w [Markdown warn_empty] [])
      /\ teach_me_this_cell completions_create ipython w
         = (Returned tt, after w [Markdown warn_empty] []))
  /\ ((n <= 1)%Z ->
      explain_this_cell completions_create ipython w
      = (Returned tt, after w [Markdown warn_explain] [])
      /\ experiments_for_this_cell completions_create ipython w
         = (Returned tt, after w [Markdown warn_experiments] [])
      /\ teach_me_this_cell completions_create ipython w
         = (Returned tt, after w [Markdown warn_teach] []))
  /\ (forall items : list display_item,
        requests (after w items []) = requests w).
Proof.
  intros Hn Hlacks. split; [apply previous_cell_entry|].
  split; [intros k hist Hk Hhist; rewrite previous_cell_entry by exact Hk;
          unfold history_entry; by rewrite Hhist|].
  split; [intros k Hk Hhist; rewrite previous_cell_entry by exact Hk;
          unfold history_entry; rewrite Hhist;
          by destruct (user_ns ipython !! "In") as [[l|d]|]|].
  split; [|split; [|intros items; apply after_nil_requests]].
  - intros Hgt.
    apply (entry_points_blank completions_create ipython w n []);
      [exact Hn|exact Hgt| |reflexivity].
    rewrite previous_cell_entry by lia.
    apply history_lacks_entry in Hlacks. by rewrite Hlacks.
  - intros Hle. apply entry_points_out_of_range. by rewrite Hn.
Qed.

Lemma C7_missing_entry_warns_witness :
  teach_me_this_cell Samples.steady
    (Samples.session (Some 3%Z) [py ""; py "x = 1"]) Samples.fresh
  = (Returned tt, after Samples.fresh [Markdown warn_empty] []).
Proof.
  exact (proj2 (proj2 (proj1 (proj2 (proj2 (proj2
    (C7_missing_entry_warns Samples.steady
       (Samples.session (Some 3%Z) [py ""; py "x = 1"]) Samples.fresh 3%Z
       eq_refl eq_refl)))) eq_refl))).
Defined.

(** ** C8: no previous ordinal *)

(** C8: when the execution count is [None], 0 or 1, each live entry point
    displays its warning and sends no request; the outcome is the same for
    every history and every user namespace, which are not consulted. *)
Theorem C8_no_previous_ordinal
    (completions_create : list chat_request -> chat_request -> outcome pystr)
    (ipython : InteractiveShell) (w : world) :
  execution_count ipython = None \/ execution_count ipython = Some 0%Z
  \/ execution_count ipython = Some 1%Z ->
  forall (hm : HistoryManager) (ns : gmap string ns_value),
    let other :=
      {| execution_count := execution_count ipython;
         history_manager := hm; user_ns := ns |} in
    explain_this_cell completions_create ipython w
    = (Returned tt, after w [Markdown warn_explain] [])
    /\ experiments_for_this_cell completions_create ipython w
       = (Returned tt, after w [Markdown warn_experiments] [])
    /\ teach_me_this_cell completions_create ipython w
       = (Returned tt, after w [Markdown warn_teach] [])
    /\ explain_this_cell completions_create other w
       = explain_this_cell completions_create ipython w
    /\ experiments_for_this_cell completions_create other w
       = experiments_for_this_cell completions_create ipython w
    /\ teach_me_this_cell completions_create other w
       = teach_me_this_cell completions_create ipython w
    /\ requests (after w [Markdown warn_explain] []) = requests w
    /\ requests (after w [Markdown warn_experiments] []) = requests w
    /\ requests (after w [Markdown warn_teach] []) = requests w.
Proof.
  intros Hcount hm ns other.
  assert (match execution_count ipython with
          | None => True
          | Some n => (n <= 1)%Z
          end) as Hrange
    by (destruct Hcount as [->|[->| ->]]; [exact I|lia|lia]).
  destruct (entry_points_out_of_range completions_create ipython w Hrange)
    as (He & Hx & Ht).
  destruct (entry_points_out_of_range completions_create other w Hrange)
    as (He' & Hx' & Ht').
  rewrite He, Hx, Ht, He', Hx', Ht'.
  repeat (split; [reflexivity|]).
  repeat split; apply after_nil_requests.
Qed.

Lemma C8_no_previous_ordinal_witness :
  teach_me_this_cell Samples.steady
    (Samples.session (Some 1%Z) [py ""]) Samples.fresh
  = (Returned tt, after Samples.fresh [Markdown warn_teach] []).
Proof.
  exact (proj1 (proj2 (proj2
    (C8_no_previous_ordinal Samples.steady
       (Samples.session (Some 1%Z) [py ""]) Samples.fresh
       (or_intror (or_intror eq_refl))
       {| input_hist_parsed := None |} ∅)))).
Defined.

(** ** Stored documents *)

Section Stored.

Variable json_load_file : pystr -> outcome notebook.
Variable completions_create : list chat_request -> chat_request -> outcome pystr.

Lemma bind_parse_notebook {B} (self : LearningAgent) (path : pystr)
    (k : list cell_data -> M B) (w : world) :
  bind (parse_notebook json_load_file self path) k w
  = match json_load_file path with
    | Returned nb =>
        match parse_loaded nb with
        | Returned cells => k cells w
        | Raised e => (Raised e, w)
        end
    | Raised e => (Raised e, w)
    end.
Proof.
  unfold parse_notebook, bind, lift.
  destruct (json_load_file path) as [nb|e]; [|reflexivity].
  by destruct (parse_loaded nb).
Qed.

Lemma parse_notebook_run (self : LearningAgent) (path : pystr) (w : world)
    (nb : notebook) :
  json_load_file path = Returned nb ->
  parse_notebook json_load_file self path w = (parse_loaded nb, w).
Proof.
  intros Hload. unfold parse_notebook, bind, lift. rewrite Hload.
  by destruct (parse_loaded nb).
Qed.

(** What [analyze_cell] does once the document is parsed and the index is
    below the number of cells. *)
Lemma analyze_cell_parsed (self : LearningAgent) (path : pystr) (idx : Z)
    (w : world) (nb : notebook) (cells : list cell_data) :
  json_load_file path = Returned nb ->
  parse_loaded nb = Returned cells ->
  (idx < Z.of_nat (length cells))%Z ->
  analyze_cell json_load_file completions_create self path idx w
  = match py_index cells idx with
    | None => (Raised IndexError, w)
    | Some target_cell =>
        if is_code target_cell then
          let context_cells :=
            if (0 <? idx)%Z then slice_to cells idx else [] in
          match completions_create (requests w)
                  (user_request self
                     (explain_prompt (build_context (Some context_cells))
                        idx (cell_source target_cell))) with
          | Raised e =>
              (Raised e,
               sent (user_request self
                       (explain_prompt (build_context (Some context_cells))
                          idx (cell_source target_cell))) w)
          | Returned explanation =>
              let w1 :=
                sent (user_request self
                        (explain_prompt (build_context (Some context_cells))
                           idx (cell_source target_cell))) w in
              match completions_create (requests w1)
                      (user_request self
                         (experiments_prompt (cell_source target_cell))) with
              | Raised e =>
                  (Raised e,
                   sent (user_request self
                           (experiments_prompt (cell_source target_cell))) w1)
              | Returned experiments =>
                  (Returned (analysed idx (cell_source target_cell)
                               explanation experiments),
                   sent (user_request self
                           (experiments_prompt (cell_source target_cell))) w1)
              end
          end
        else
          (Returned (info (py "Cell " ++ str_int idx
                           ++ py " is a markdown cell, not code.")), w)
    end.
Proof.
  intros Hload Hparse Hlt. unfold analyze_cell.
  rewrite bind_parse_notebook, Hload, Hparse.
  assert ((Z.of_nat (length cells) <=? idx)%Z = false) as -> by lia.
  destruct (py_index cells idx) as [target_cell|]; [|reflexivity].
  destruct (is_code target_cell); [|reflexivity].
  cbn [negb]. cbv zeta.
  unfold learning_agent.explain_concept, learning_agent.suggest_experiments.
  cbv zeta. rewrite bind_create.
  destruct (completions_create _ _); [|reflexivity].
  rewrite bind_create.
  by destruct (completions_create _ _).
Qed.

End Stored.

Lemma py_index_negative {A} (l : list A) (i : Z) :
  (- Z.of_nat (length l) <= i <= -1)%Z ->
  exists x : A,
    l !! Z.to_nat (Z.of_nat (length l) + i) = Some x
    /\ py_index l i = Some x.
Proof.
  intros Hi. unfold py_index.
  assert ((0 <=? i)%Z = false) as -> by lia.
  assert ((- Z.of_nat (length l) <=? i)%Z = true) as -> by lia.
  destruct (lookup_lt_is_Some_2 l (Z.to_nat (Z.of_nat (length l) + i)))
    as [x Hx]; [lia|].
  exists x. by rewrite Hx.
Qed.

(** ** C4: the index check *)

(** C4, as stated, fails for negative indices: on a document of one code
    cell, index -1 is not rejected; the cell is analysed and two requests are
    sent. *)
Lemma C4_negative_index_not_rejected :
  let nb := Samples.document [Samples.raw_code (FStr (py "x = 1"))] in
  let run := analyze_cell (Samples.disk nb) Samples.steady init
               (py "lab.ipynb") (-1) Samples.fresh in
  parse_loaded nb = Returned [Samples.code_cell 0 "x = 1"]
  /\ (-1 < 0)%Z
  /\ fst run = Returned (analysed (-1) (py "x = 1") (py "ok") (py "ok"))
  /\ length (requests (snd run)) = 2.
Proof. cbv zeta. repeat split; by vm_compute. Qed.

(** C4 (amended): for every parsed document and every index at or above the
    number of cells, [analyze_cell] returns the out-of-range error and the
    world is unchanged: no request is sent. *)
Theorem C4_index_at_or_above_count_rejected
    (json_load_file : pystr -> outcome notebook)
    (completions_create : list chat_request -> chat_request -> outcome pystr)
    (self : LearningAgent) (path : pystr) (idx : Z) (w : world)
    (nb : notebook) (cells : list cell_data) :
  json_load_file path = Returned nb ->
  parse_loaded nb = Returned cells ->
  (Z.of_nat (length cells) <= idx)%Z ->
  analyze_cell json_load_file completions_create self path idx w
  = (Returned (error (py "Cell index " ++ str_int idx
                      ++ py " out of range. Notebook has "
                      ++ str_int (Z.of_nat (length cells)) ++ py " cells.")),
     w).
Proof.
  intros Hload Hparse Hge. unfold analyze_cell.
  rewrite bind_parse_notebook, Hload, Hparse.
  by assert ((Z.of_nat (length cells) <=? idx)%Z = true) as -> by lia.
Qed.

Lemma C4_index_at_or_above_count_rejected_witness :
  analyze_cell
    (Samples.disk (Samples.document [Samples.raw_code (FStr (py "x = 1"))]))
    Samples.steady init (py "lab.ipynb") 1 Samples.fresh
  = (Returned (error (py "Cell index " ++ str_int 1
                      ++ py " out of range. Notebook has "
                      ++ str_int (Z.of_nat (length [Samples.code_cell 0 "x = 1"]))
                      ++ py " cells.")),
     Samples.fresh).
Proof.
  apply (C4_index_at_or_above_count_rejected _ _ _ _ _ _
           (Samples.document [Samples.raw_code (FStr (py "x = 1"))])
           [Samples.code_cell 0 "x = 1"]).
  - reflexivity.
  - vm_compute. reflexivity.
  - vm_compute. discriminate.
Defined.

(** ** C5: negative indices *)

(** C5: for a parsed document with at least one cell and an index between
    minus the number of cells and -1, [analyze_cell] does not return the
    out-of-range error: the target is the cell at position
    [len(cells) + cell_index]. A code target is analysed, with the negative
    index in the prompt and no context; another target gives the
    informational result. *)
Theorem C5_negative_index_counts_from_end
    (json_load_file : pystr -> outcome notebook)
    (completions_create : list chat_request -> chat_request -> outcome pystr)
    (self : LearningAgent) (path : pystr) (idx : Z) (w : world)
    (nb : notebook) (cells : list cell_data) :
  json_load_file path = Returned nb ->
  parse_loaded nb = Returned cells ->
  1 <= length cells ->
  (- Z.of_nat (length cells) <= idx <= -1)%Z ->
  let run := analyze_cell json_load_file completions_create self path idx w in
  exists target : cell_data,
    cells !! Z.to_nat (Z.of_nat (length cells) + idx) = Some target
    /\ (forall msg : pystr, fst run <> Returned (error msg))
    /\ run
       = (if is_code target then
            (explanation <~ learning_agent.explain_concept completions_create
                              self (cell_source target) idx (Some []);;
             experiments <~ learning_agent.suggest_experiments
                              completions_create self (cell_source target) idx;;
             ret (analysed idx (cell_source target) explanation experiments)) w
          else
            (Returned (info (py "Cell " ++ str_int idx
                             ++ py " is a markdown cell, not code.")), w))
    /\ (is_code target = true ->
        exists new : list chat_request,
          requests (snd run)
          = requests w
              ++ user_request self
                   (explain_prompt [] idx (cell_source target)) :: new).
Proof.
  intros Hload Hparse Hlen Hidx run.
  destruct (py_index_negative cells idx Hidx) as (target & Hlookup & Hindex).
  exists target. split; [exact Hlookup|].
  assert (run
          = if is_code target then
              (explanation <~ learning_agent.explain_concept completions_create
                                self (cell_source target) idx (Some []);;
               experiments <~ learning_agent.suggest_experiments
                                completions_create self (cell_source target) idx;;
               ret (analysed idx (cell_source target) explanation experiments)) w
            else
              (Returned (info (py "Cell " ++ str_int idx
                               ++ py " is a markdown cell, not code.")), w))
    as Hrun.
  { unfold run, analyze_cell.
    rewrite bind_parse_notebook, Hload, Hparse.
    assert ((Z.of_nat (length cells) <=? idx)%Z = false) as -> by lia.
    rewrite Hindex.
    assert ((0 <? idx)%Z = false) as -> by lia.
    by destruct (is_code target). }
  pose proof (analyze_cell_parsed json_load_file completions_create self path
                idx w nb cells Hload Hparse ltac:(lia)) as Hparsed.
  fold run in Hparsed. rewrite Hindex in Hparsed.
  assert ((0 <? idx)%Z = false) as Hneg by lia.
  rewrite Hneg in Hparsed. cbv zeta in Hparsed.
  change (build_context (Some [])) with (@nil N) in Hparsed.
  split; [|split; [exact Hrun|]].
  - intros msg. rewrite Hparsed.
    destruct (is_code target); [|discriminate].
    destruct (completions_create _ _); [|discriminate].
    destruct (completions_create _ _); discriminate.
  - intros Hcode. rewrite Hparsed, Hcode.
    destruct (completions_create _ _); [|by exists []].
    destruct (completions_create _ _); eexists;
      cbn [snd requests sent]; by rewrite <- app_assoc.
Qed.

Lemma C5_negative_index_counts_from_end_witness :
  exists target : cell_data,
    [Samples.code_cell 0 "a = 1"; Samples.markdown_cell 1 "# notes"]
      !! Z.to_nat (Z.of_nat 2 + -1) = Some target
    /\ is_code target = false.
Proof.
  destruct (C5_negative_index_counts_from_end
              (Samples.disk (Samples.document
                 [Samples.raw_code (FStr (py "a = 1"));
                  Samples.raw_markdown (FStr (py "# notes"))]))
              Samples.steady init (py "lab.ipynb") (-1) Samples.fresh
              (Samples.document
                 [Samples.raw_code (FStr (py "a = 1"));
                  Samples.raw_markdown (FStr (py "# notes"))])
              [Samples.code_cell 0 "a = 1"; Samples.markdown_cell 1 "# notes"])
    as (target & Hlookup & _).
  - reflexivity.
  - vm_compute. reflexivity.
  - vm_compute. lia.
  - vm_compute. split; discriminate.
  - exists target. split; [exact Hlookup|].
    vm_compute in Hlookup. injection Hlookup as <-. vm_compute. reflexivity.
Defined.

(** ** C6: malformed documents *)

Lemma parse_cell_outcome (idx : nat) (cell : raw_cell) :
  (incomplete cell
   /\ exists key : string,
        (key = "cell_type" \/ key = "source")
        /\ parse_cell idx cell = Raised (KeyError key))
  \/ (~ incomplete cell
      /\ exists ty src : field,
           cell !! "cell_type" = Some ty /\ cell !! "source" = Some src
           /\ parse_cell idx cell
              = Returned {| cell_index := idx; cell_type := ty;
                            cell_source := source_text src;
                            cell_id := default
                              (FStr (py "cell-" ++ str_int (Z.of_nat idx)))
                              (cell !! "id") |}).
Proof.
  unfold parse_cell, getitem, incomplete.
  destruct (cell !! "cell_type") as [ty|] eqn:Hty.
  - destruct (cell !! "source") as [src|] eqn:Hsrc.
    + right. split; [intros [?|?]; discriminate|]. by exists ty, src.
    + left. split; [by right|]. exists "source". split; [by right|done].
  - left. split; [by left|]. exists "cell_type". split; [by left|done].
Qed.

Lemma parse_cells_outcome (raw : list raw_cell) (idx : nat) :
  (Exists incomplete raw
   /\ exists key : string,
        (key = "cell_type" \/ key = "source")
        /\ parse_cells idx raw = Raised (KeyError key))
  \/ (Forall (fun cell => ~ incomplete cell) raw
      /\ exists cells : list cell_data,
           parse_cells idx raw = Returned cells
           /\ length cells = length raw).
Proof.
  revert idx. induction raw as [|cell rest IH]; intros idx.
  - right. split; [constructor|]. by exists [].
  - cbn [parse_cells].
    destruct (parse_cell_outcome idx cell)
      as [(Hbad & key & Hkey & ->)|(Hgood & ty & src & _ & _ & ->)].
    + left. split; [by left|]. by exists key.
    + destruct (IH (S idx))
        as [(Hbad & key & Hkey & ->)|(Hrest & cells & -> & Hlen)].
      * left. split; [by right|]. by exists key.
      * right. split; [by constructor|].
        eexists. split; [reflexivity|]. cbn [length]. by rewrite Hlen.
Qed.

Lemma parse_loaded_outcome (nb : notebook) :
  (malformed nb
   /\ exists key : string,
        (key = "cells" \/ key = "cell_type" \/ key = "source")
        /\ parse_loaded nb = Raised (KeyError key))
  \/ (~ malformed nb /\ exists cells : list cell_data,
        parse_loaded nb = Returned cells).
Proof.
  unfold parse_loaded, getitem, malformed.
  destruct (nb !! "cells") as [raw|].
  - destruct (parse_cells_outcome raw 0)
      as [(Hbad & key & Hkey & ->)|(Hgood & cells & -> & _)].
    + left. split; [exact Hbad|]. exists key. split; [|done].
      destruct Hkey as [->| ->]; [right; by left|right; by right].
    + right. split; [|by exists cells].
      intros Hbad. apply Exists_exists in Hbad as (cell & Hin & Hcell).
      rewrite Forall_forall in Hgood. by apply (Hgood cell).
  - left. split; [exact I|]. exists "cells". split; [by left|done].
Qed.

(** C6, as stated, fails: a root object without 'cells' makes
    [parse_notebook] raise [KeyError], which [analyze_cell] lets through; the
    caller receives no result, neither from the one nor from the other. The
    same holds for a cell without 'source'. *)
Lemma C6_missing_key_escapes :
  let no_cells : notebook := ∅ in
  let no_source : notebook :=
    Samples.document [ {[ "cell_type" := FStr (py "code") ]} ] in
  parse_notebook (Samples.disk no_cells) init (py "lab.ipynb") Samples.fresh
  = (Raised (KeyError "cells"), Samples.fresh)
  /\ analyze_cell (Samples.disk no_cells) Samples.steady init
       (py "lab.ipynb") 0 Samples.fresh
     = (Raised (KeyError "cells"), Samples.fresh)
  /\ analyze_cell (Samples.disk no_source) Samples.steady init
       (py "lab.ipynb") 0 Samples.fresh
     = (Raised (KeyError "source"), Samples.fresh)
  /\ (forall result : analysis,
        fst (analyze_cell (Samples.disk no_cells) Samples.steady init
               (py "lab.ipynb") 0 Samples.fresh) <> Returned result).
Proof.
  cbv zeta. split; [by vm_compute|]. split; [by vm_compute|].
  split; [by vm_compute|]. intros result. vm_compute. discriminate.
Qed.

(** C6 (amended): [parse_notebook] raises [KeyError], naming the missing
    key, exactly when the root object has no 'cells' or some cell has no
    'cell_type' or no 'source'. The exception is not caught: it leaves
    [parse_notebook] and [analyze_cell] alike, before any request is sent. *)
Theorem C6_malformed_raises_KeyError
    (json_load_file : pystr -> outcome notebook)
    (completions_create : list chat_request -> chat_request -> outcome pystr)
    (self : LearningAgent) (path : pystr) (idx : Z) (w : world)
    (nb : notebook) :
  json_load_file path = Returned nb ->
  (malformed nb <-> exists e : exn, parse_loaded nb = Raised e)
  /\ (malformed nb ->
      exists key : string,
        (key = "cells" \/ key = "cell_type" \/ key = "source")
        /\ parse_notebook json_load_file self path w
           = (Raised (KeyError key), w)
        /\ analyze_cell json_load_file completions_create self path idx w
           = (Raised (KeyError key), w)).
Proof.
  intros Hload.
  destruct (parse_loaded_outcome nb)
    as [(Hbad & key & Hkey & Hraise)|(Hgood & cells & Hret)].
  - split.
    + split; [intros _; by exists (KeyError key)|intros _; exact Hbad].
    + intros _. exists key. split; [exact Hkey|].
      split.
      * by rewrite (parse_notebook_run _ _ _ _ nb Hload), Hraise.
      * unfold analyze_cell. by rewrite bind_parse_notebook, Hload, Hraise.
  - split; [|intros Hbad; by destruct Hgood].
    split; [intros Hbad; by destruct Hgood|].
    intros [e He]. rewrite Hret in He. discriminate.
Qed.

Lemma C6_malformed_raises_KeyError_witness :
  exists key : string,
    analyze_cell (Samples.disk ∅) Samples.steady init (py "lab.ipynb") 0
      Samples.fresh
    = (Raised (KeyError key), Samples.fresh).
Proof.
  assert (malformed (∅ : notebook)) as Hbad
    by (unfold malformed; rewrite lookup_empty; exact I).
  destruct (proj2 (C6_malformed_raises_KeyError (Samples.disk ∅)
              Samples.steady init (py "lab.ipynb") 0 Samples.fresh ∅ eq_refl)
              Hbad)
    as (key & _ & _ & Hrun).
  exists key. exact Hrun.
Defined.

(** ** C9: the two encodings of a source *)

Lemma parse_cell_same_text (idx : nat) (plain split : raw_cell) :
  same_text_split plain split ->
  parse_cell idx split = parse_cell idx plain.
Proof.
  intros (s & fragments & Hsrc & Hjoin & ->).
  unfold parse_cell, getitem.
  rewrite (lookup_insert_ne plain "source" "cell_type") by done.
  rewrite (lookup_insert_ne plain "source" "id") by done.
  rewrite lookup_insert_eq, Hsrc. cbn [source_text]. by rewrite Hjoin.
Qed.

Lemma parse_cells_same_text (plain split : list raw_cell) (idx : nat) :
  Forall2 same_text_split plain split ->
  parse_cells idx split = parse_cells idx plain.
Proof.
  intros H. revert idx.
  induction H as [|c1 c2 rest1 rest2 Hc _ IH]; intros idx; [reflexivity|].
  cbn [parse_cells]. by rewrite (parse_cell_same_text idx c1 c2 Hc), IH.
Qed.

Lemma parse_cells_sources (raw : list raw_cell) (idx : nat)
    (cells : list cell_data) :
  parse_cells idx raw = Returned cells ->
  Forall2 (fun cell data =>
             exists src : field,
               cell !! "source" = Some src
               /\ cell_source data = source_text src) raw cells.
Proof.
  revert idx cells. induction raw as [|cell rest IH]; intros idx cells.
  - cbn [parse_cells]. intros [= <-]. constructor.
  - cbn [parse_cells].
    destruct (parse_cell_outcome idx cell)
      as [(_ & key & _ & ->)|(_ & ty & src & _ & Hsrc & ->)]; [discriminate|].
    destruct (parse_cells (S idx) rest) as [tail|e] eqn:Hrest; [|discriminate].
    intros [= <-]. constructor; [by exists src|by apply (IH (S idx))].
Qed.

Lemma plain_sources (plain split : list raw_cell) (cells : list cell_data) :
  Forall2 same_text_split plain split ->
  Forall2 (fun cell data =>
             exists src : field,
               cell !! "source" = Some src
               /\ cell_source data = source_text src) plain cells ->
  Forall2 (fun cell data => cell !! "source" = Some (FStr (cell_source data)))
          plain cells.
Proof.
  intros Hsplit. revert cells.
  induction Hsplit as [|c1 c2 rest1 rest2 Hc _ IH]; intros cells Hret.
  - inversion Hret. constructor.
  - inversion Hret as [|? data ? tail (src & Hsrc & Hdata) Htail]; subst.
    constructor; [|by apply IH].
    destruct Hc as (s & fragments & Hs & _ & _).
    rewrite Hs in Hsrc. injection Hsrc as <-. by rewrite Hdata.
Qed.

Lemma split_sources (plain split : list raw_cell) (cells : list cell_data) :
  Forall2 same_text_split plain split ->
  Forall2 (fun cell data =>
             exists src : field,
               cell !! "source" = Some src
               /\ cell_source data = source_text src) split cells ->
  Forall2 (fun cell data =>
             exists fragments : list pystr,
               cell !! "source" = Some (FList fragments)
               /\ cell_source data = join fragments) split cells.
Proof.
  intros Hsplit. revert cells.
  induction Hsplit as [|c1 c2 rest1 rest2 Hc _ IH]; intros cells Hret.
  - inversion Hret. constructor.
  - inversion Hret as [|? data ? tail (src & Hsrc & Hdata) Htail]; subst.
    constructor; [|by apply IH].
    destruct Hc as (s & fragments & _ & _ & ->).
    rewrite lookup_insert_eq in Hsrc. injection Hsrc as <-.
    exists fragments. split; [apply lookup_insert_eq|exact Hdata].
Qed.

(** C9: a document whose sources are plain strings and the document that
    gives each source as a list of fragments of the same text are parsed
    alike, cell by cell; when the parse returns, the source of each cell is
    the plain string, which is the fragments joined in order. *)
Theorem C9_fragments_parse_as_plain_string
    (nb : notebook) (plain split : list raw_cell) :
  nb !! "cells" = Some plain ->
  Forall2 same_text_split plain split ->
  parse_loaded (<["cells" := split]> nb) = parse_loaded nb
  /\ (forall cells : list cell_data,
        parse_loaded nb = Returned cells ->
        Forall2 (fun cell data => cell !! "source" = Some (FStr (cell_source data)))
                plain cells
        /\ Forall2 (fun cell data =>
                      exists fragments : list pystr,
                        cell !! "source" = Some (FList fragments)
                        /\ cell_source data = join fragments)
                   split cells)
  /\ (Forall (fun cell => is_Some (cell !! "cell_type")) plain ->
      exists cells : list cell_data, parse_loaded nb = Returned cells).
Proof.
  intros Hcells Hsplit.
  assert (parse_loaded (<["cells" := split]> nb) = parse_loaded nb) as Hsame.
  { unfold parse_loaded, getitem. rewrite lookup_insert_eq, Hcells.
    by apply parse_cells_same_text. }
  split; [exact Hsame|]. split.
  - intros cells Hret. split.
    + unfold parse_loaded, getitem in Hret. rewrite Hcells in Hret.
      apply parse_cells_sources in Hret.
      by apply (plain_sources plain split).
    + rewrite <- Hsame in Hret.
      unfold parse_loaded, getitem in Hret. rewrite lookup_insert_eq in Hret.
      apply parse_cells_sources in Hret.
      by apply (split_sources plain split).
  - intros Htypes.
    destruct (parse_loaded_outcome nb)
      as [(Hbad & _)|(_ & cells & Hret)]; [|by exists cells].
    exfalso. unfold malformed in Hbad. rewrite Hcells in Hbad.
    apply Exists_exists in Hbad as (cell & Hin & Hcell).
    rewrite Forall_forall in Htypes. specialize (Htypes cell Hin).
    apply list_elem_of_lookup in Hin as [i Hi].
    destruct (Forall2_lookup_l _ _ _ i cell Hsplit Hi)
      as (c2 & _ & s & fragments & Hs & _ & _).
    destruct Hcell as [Hty|Hsrc]; [|congruence].
    rewrite Hty in Htypes. by destruct Htypes.
Qed.

Lemma C9_fragments_parse_as_plain_string_witness :
  parse_loaded
    (<["cells" := [Samples.raw_code (FList [py "x = "; py "1"])]]>
       (Samples.document [Samples.raw_code (FStr (py "x = 1"))]))
  = parse_loaded (Samples.document [Samples.raw_code (FStr (py "x = 1"))]).
Proof.
  refine (proj1 (C9_fragments_parse_as_plain_string
            (Samples.document [Samples.raw_code (FStr (py "x = 1"))])
            [Samples.raw_code (FStr (py "x = 1"))]
            [Samples.raw_code (FList [py "x = "; py "1"])] eq_refl _)).
  apply Forall2_cons_2; [|apply Forall2_nil_2].
  exists (py "x = 1"), [py "x = "; py "1"].
  split; [reflexivity|]. split; [reflexivity|].
  unfold Samples.raw_code. vm_compute. reflexivity.
Defined.

(** ** C10: prompts *)

(** C10: the request sent by [explain_concept] and by [suggest_experiments]
    is determined by the arguments of the call: whatever the service answers
    and whatever was displayed or requested before, a call with the same
    agent, code, index and context cells sends one request, whose single
    message has the role [user] and as content the same prompt text. *)
Theorem C10_prompt_determined_by_arguments
    (create1 create2 : list chat_request -> chat_request -> outcome pystr)
    (self : LearningAgent) (cell_content : pystr) (cell_index : Z)
    (context_cells : option (list cell_data)) (w1 w2 : world) :
  let explain_text :=
    explain_prompt (build_context context_cells) cell_index cell_content in
  let experiments_text := experiments_prompt cell_content in
  let ask (text : pystr) :=
    {| model := agent_model self;
       messages := [ {| role := py "user"; content := text |} ] |} in
  requests (snd (learning_agent.explain_concept create1 self cell_content
                   cell_index context_cells w1))
  = requests w1 ++ [ask explain_text]
  /\ requests (snd (learning_agent.explain_concept create2 self cell_content
                      cell_index context_cells w2))
     = requests w2 ++ [ask explain_text]
  /\ requests (snd (learning_agent.suggest_experiments create1 self
                      cell_content cell_index w1))
     = requests w1 ++ [ask experiments_text]
  /\ requests (snd (learning_agent.suggest_experiments create2 self
                      cell_content cell_index w2))
     = requests w2 ++ [ask experiments_text]
  /\ last (requests (snd (learning_agent.explain_concept create1 self
                            cell_content cell_index context_cells w1)))
     = last (requests (snd (learning_agent.explain_concept create2 self
                              cell_content cell_index context_cells w2)))
  /\ last (requests (snd (learning_agent.suggest_experiments create1 self
                            cell_content cell_index w1)))
     = last (requests (snd (learning_agent.suggest_experiments create2 self
                              cell_content cell_index w2))).
Proof.
  intros explain_text experiments_text ask.
  unfold learning_agent.explain_concept, learning_agent.suggest_experiments.
  cbv zeta. rewrite !create_run. cbn [snd requests sent].
  fold explain_text experiments_text. unfold user_request.
  fold (ask explain_text) (ask experiments_text).
  repeat (split; [reflexivity|]). split; by rewrite !last_snoc.
Qed.

(** * Further properties *)

(** ** Parsing *)

Lemma parse_cells_positions (raw : list raw_cell) (idx : nat)
    (cells : list cell_data) :
  parse_cells idx raw = Returned cells ->
  length cells = length raw
  /\ forall (i : nat) (data : cell_data),
       cells !! i = Some data ->
       cell_index data = idx + i
       /\ exists (cell : raw_cell) (src : field),
            raw !! i = Some cell
            /\ cell !! "cell_type" = Some (cell_type data)
            /\ cell !! "source" = Some src
            /\ cell_source data = source_text src
            /\ cell_id data
               = default (FStr (py "cell-" ++ str_int (Z.of_nat (idx + i))))
                         (cell !! "id").
Proof.
  revert idx cells. induction raw as [|cell rest IH]; intros idx cells.
  - cbn [parse_cells]. intros [= <-]. split; [reflexivity|].
    intros i data Hi. by rewrite lookup_nil in Hi.
  - cbn [parse_cells].
    destruct (parse_cell_outcome idx cell)
      as [(_ & key & _ & ->)|(_ & ty & src & Hty & Hsrc & ->)]; [discriminate|].
    destruct (parse_cells (S idx) rest) as [tail|e] eqn:Hrest; [|discriminate].
    intros [= <-]. destruct (IH (S idx) tail Hrest) as [Hlen Hpos].
    split; [cbn [length]; by rewrite Hlen|].
    intros [|i] data Hi.
    + injection Hi as <-. cbn [cell_index cell_type cell_source cell_id].
      split; [lia|]. exists cell, src.
      rewrite Nat.add_0_r. by repeat split.
    + destruct (Hpos i data Hi) as (Hidx & c & s0 & Hc & Hrestc).
      split; [lia|]. exists c, s0.
      replace (idx + S i) with (S idx + i) by lia. by split.
Qed.

Lemma parsed_index_is_position (nb : notebook) (cells : list cell_data)
    (i : nat) (data : cell_data) :
  parse_loaded nb = Returned cells ->
  cells !! i = Some data ->
  cell_index data = i.
Proof.
  unfold parse_loaded, getitem.
  destruct (nb !! "cells") as [raw|]; [|discriminate].
  intros Hparse Hi.
  by destruct (proj2 (parse_cells_positions raw 0 cells Hparse) i data Hi).
Qed.

(** X1: a parse that returns keeps the cells of the document one for one
    and in order: cell [i] of the result has index [i], the type and the
    joined source of cell object [i], and its 'id', or [cell-i] when the cell
    object has none. *)
Theorem X1_parse_keeps_positions (nb : notebook) (raw : list raw_cell)
    (cells : list cell_data) :
  nb !! "cells" = Some raw ->
  parse_loaded nb = Returned cells ->
  length cells = length raw
  /\ forall (i : nat) (data : cell_data),
       cells !! i = Some data ->
       cell_index data = i
       /\ exists (cell : raw_cell) (src : field),
            raw !! i = Some cell
            /\ cell !! "cell_type" = Some (cell_type data)
            /\ cell !! "source" = Some src
            /\ cell_source data = source_text src
            /\ cell_id data
               = default (FStr (py "cell-" ++ str_int (Z.of_nat i)))
                         (cell !! "id").
Proof.
  intros Hcells. unfold parse_loaded, getitem. rewrite Hcells.
  intros Hparse. exact (parse_cells_positions raw 0 cells Hparse).
Qed.

Lemma X1_parse_keeps_positions_witness :
  length [Samples.code_cell 0 "a = 1"; Samples.markdown_cell 1 "# notes"]
  = length [Samples.raw_code (FStr (py "a = 1"));
            Samples.raw_markdown (FStr (py "# notes"))].
Proof.
  refine (proj1 (X1_parse_keeps_positions
            (Samples.document [Samples.raw_code (FStr (py "a = 1"));
                               Samples.raw_markdown (FStr (py "# notes"))])
            [Samples.raw_code (FStr (py "a = 1"));
             Samples.raw_markdown (FStr (py "# notes"))]
            [Samples.code_cell 0 "a = 1"; Samples.markdown_cell 1 "# notes"]
            _ _)).
  - vm_compute. reflexivity.
  - vm_compute. reflexivity.
Defined.

(** X2: the cells are read in order and the first incomplete one stops the
    parse: the [KeyError] names 'cell_type' when that cell has no
    'cell_type', and 'source' otherwise, whatever follows it in the
    document. *)
Theorem X2_first_incomplete_cell_decides (nb : notebook)
    (before after_it : list raw_cell) (bad : raw_cell) :
  nb !! "cells" = Some (before ++ bad :: after_it) ->
  Forall (fun cell => ~ incomplete cell) before ->
  incomplete bad ->
  parse_loaded nb
  = Raised (KeyError (match bad !! "cell_type" with
                      | None => "cell_type"
                      | Some _ => "source"
                      end)).
Proof.
  intros Hcells Hbefore Hbad. unfold parse_loaded, getitem. rewrite Hcells.
  clear Hcells. generalize 0 as idx.
  induction Hbefore as [|cell rest Hcell _ IH]; intros idx.
  - cbn [app parse_cells]. unfold parse_cell, getitem.
    destruct (bad !! "cell_type") as [ty|] eqn:Hty; [|reflexivity].
    destruct Hbad as [Hbad|Hbad]; [congruence|]. by rewrite Hbad.
  - cbn [app parse_cells].
    destruct (parse_cell_outcome idx cell)
      as [(Hinc & _)|(_ & ty & src & _ & _ & ->)]; [by destruct Hcell|].
    by rewrite IH.
Qed.

Lemma X2_first_incomplete_cell_decides_witness :
  parse_loaded
    (Samples.document
       ([Samples.raw_code (FStr (py "a = 1"))]
          ++ {[ "cell_type" := FStr (py "code") ]} :: [∅]))
  = Raised (KeyError "source").
Proof.
  refine (eq_trans
    (X2_first_incomplete_cell_decides
       (Samples.document
          ([Samples.raw_code (FStr (py "a = 1"))]
             ++ {[ "cell_type" := FStr (py "code") ]} :: [∅]))
       [Samples.raw_code (FStr (py "a = 1"))] [∅]
       {[ "cell_type" := FStr (py "code") ]} _ _ _) _).
  - apply lookup_singleton_eq.
  - apply Forall_cons_2; [|apply Forall_nil_2].
    intros [H|H]; vm_compute in H; discriminate H.
  - right. vm_compute. reflexivity.
  - vm_compute. reflexivity.
Defined.

Lemma parse_cell_extra_entry (idx : nat) (cell extended : raw_cell) :
  extra_entry cell extended ->
  parse_cell idx extended = parse_cell idx cell.
Proof.
  intros (key & v & Hkey & ->). unfold cell_key in Hkey.
  unfold parse_cell, getitem.
  rewrite (lookup_insert_ne cell key "cell_type")
    by (intros ->; apply Hkey; left; reflexivity).
  rewrite (lookup_insert_ne cell key "source")
    by (intros ->; apply Hkey; right; left; reflexivity).
  rewrite (lookup_insert_ne cell key "id")
    by (intros ->; apply Hkey; right; right; reflexivity).
  reflexivity.
Qed.

(** X3: the parse reads 'cells' in the root object and 'cell_type',
    'source' and 'id' in a cell object, and nothing else: an entry under any
    other key, in the root or in a cell, leaves the result as it is. *)
Theorem X3_parse_ignores_other_entries (nb : notebook)
    (raw extended : list raw_cell) (key : string) (v : list raw_cell) :
  nb !! "cells" = Some raw ->
  Forall2 extra_entry raw extended ->
  key <> "cells" ->
  parse_loaded (<["cells" := extended]> nb) = parse_loaded nb
  /\ parse_loaded (<[key := v]> nb) = parse_loaded nb.
Proof.
  intros Hcells Hext Hkey. unfold parse_loaded, getitem. split.
  - rewrite lookup_insert_eq, Hcells. clear Hcells. generalize 0 as idx.
    induction Hext as [|c1 c2 rest1 rest2 Hc _ IH]; intros idx; [reflexivity|].
    cbn [parse_cells]. by rewrite (parse_cell_extra_entry idx c1 c2 Hc), IH.
  - by rewrite lookup_insert_ne.
Qed.

Lemma X3_parse_ignores_other_entries_witness :
  parse_loaded
    (<["cells" := [ <["outputs" := FList []]>
                      (Samples.raw_code (FStr (py "a = 1"))) ]]>
       (Samples.document [Samples.raw_code (FStr (py "a = 1"))]))
  = parse_loaded (Samples.document [Samples.raw_code (FStr (py "a = 1"))]).
Proof.
  refine (proj1 (X3_parse_ignores_other_entries
            (Samples.document [Samples.raw_code (FStr (py "a = 1"))])
            [Samples.raw_code (FStr (py "a = 1"))]
            [ <["outputs" := FList []]>
                (Samples.raw_code (FStr (py "a = 1"))) ]
            "metadata" [] (lookup_singleton_eq _ _) _ _)).
  - apply Forall2_cons_2; [|apply Forall2_nil_2].
    exists "outputs", (FList []). split; [|reflexivity].
    unfold cell_key. intros [H|[H|H]]; discriminate H.
  - discriminate.
Defined.

(** ** Analysis of a stored cell *)

Lemma py_index_nonneg {A} (l : list A) (i : Z) :
  (0 <= i)%Z -> py_index l i = l !! Z.to_nat i.
Proof. intros Hi. unfold py_index. by assert ((0 <=? i)%Z = true) as -> by lia. Qed.

Lemma build_context_take_0 (cells : list cell_data) (idx : Z) :
  (0 <= idx)%Z ->
  build_context (Some (if (0 <? idx)%Z then slice_to cells idx else []))
  = build_context (Some (slice_to cells idx)).
Proof.
  intros Hidx. destruct (0 <? idx)%Z eqn:Hpos; [reflexivity|].
  by assert (idx = 0%Z) as -> by lia.
Qed.

Section StoredCell.

Variable json_load_file : pystr -> outcome notebook.
Variable completions_create : list chat_request -> chat_request -> outcome pystr.
Variables (self : LearningAgent) (path : pystr) (idx : Z) (w : world).
Variables (nb : notebook) (cells : list cell_data) (target : cell_data).

Hypothesis Hload : json_load_file path = Returned nb.
Hypothesis Hparse : parse_loaded nb = Returned cells.
Hypothesis Hidx : (0 <= idx)%Z.
Hypothesis Htarget : cells !! Z.to_nat idx = Some target.

Let explain_request : chat_request :=
  user_request self
    (explain_prompt (build_context (Some (slice_to cells idx))) idx
       (cell_source target)).

Let experiments_request : chat_request :=
  user_request self (experiments_prompt (cell_source target)).

Lemma analyze_cell_at_target :
  analyze_cell json_load_file completions_create self path idx w
  = if is_code target then
      match completions_create (requests w) explain_request with
      | Raised e => (Raised e, sent explain_request w)
      | Returned explanation =>
          match completions_create (requests w ++ [explain_request])
                  experiments_request with
          | Raised e =>
              (Raised e, sent experiments_request (sent explain_request w))
          | Returned experiments =>
              (Returned (analysed idx (cell_source target)
                           explanation experiments),
               sent experiments_request (sent explain_request w))
          end
      end
    else
      (Returned (info (py "Cell " ++ str_int idx
                       ++ py " is a markdown cell, not code.")), w).
Proof.
  assert (idx < Z.of_nat (length cells))%Z as Hlt
    by (apply lookup_lt_Some in Htarget; lia).
  rewrite (analyze_cell_parsed json_load_file completions_create self path
             idx w nb cells Hload Hparse Hlt).
  rewrite (py_index_nonneg cells idx Hidx), Htarget.
  cbv zeta. rewrite (build_context_take_0 cells idx Hidx).
  reflexivity.
Qed.

(** X4: a target that is not a code cell, whatever its type, gives the
    informational result, which calls it a markdown cell; the world is left
    as it was, so no request is sent. *)
Theorem X4_other_cell_gives_info :
  is_code target = false ->
  analyze_cell json_load_file completions_create self path idx w
  = (Returned (info (py "Cell " ++ str_int idx
                     ++ py " is a markdown cell, not code.")), w).
Proof. intros Hcode. by rewrite analyze_cell_at_target, Hcode. Qed.

(** X5: for a code cell, when the service answers both requests, the
    analysis sends exactly two requests, the explanation first; the
    explanation prompt carries the index, the source of the cell as parsed
    (not stripped) and the context built from the cells before the target;
    the result holds the index, the source and the two answers. *)
Theorem X5_code_cell_two_requests (explanation experiments : pystr) :
  is_code target = true ->
  completions_create (requests w) explain_request = Returned explanation ->
  completions_create (requests w ++ [explain_request]) experiments_request
  = Returned experiments ->
  analyze_cell json_load_file completions_create self path idx w
  = (Returned (analysed idx (cell_source target) explanation experiments),
     {| _agent := _agent w;
        displayed := displayed w;
        requests := requests w ++ [explain_request; experiments_request] |}).
Proof.
  intros Hcode Hfirst Hsecond.
  rewrite analyze_cell_at_target, Hcode, Hfirst, Hsecond.
  unfold sent. cbn [_agent displayed requests].
  by rewrite <- app_assoc.
Qed.

(** X6: a failure of the service ends the analysis with the exception of
    the service. When the explanation request fails, the experiments request
    is never sent; when the experiments request fails, the explanation
    already received is dropped with it. *)
Theorem X6_service_failure_propagates (e : exn) :
  is_code target = true ->
  (completions_create (requests w) explain_request = Raised e ->
   analyze_cell json_load_file completions_create self path idx w
   = (Raised e,
      {| _agent := _agent w;
         displayed := displayed w;
         requests := requests w ++ [explain_request] |}))
  /\ (forall explanation : pystr,
        completions_create (requests w) explain_request
        = Returned explanation ->
        completions_create (requests w ++ [explain_request])
          experiments_request = Raised e ->
        analyze_cell json_load_file completions_create self path idx w
        = (Raised e,
           {| _agent := _agent w;
              displayed := displayed w;
              requests := requests w
                            ++ [explain_request; experiments_request] |})).
Proof.
  intros Hcode. split.
  - intros Hfirst. by rewrite analyze_cell_at_target, Hcode, Hfirst.
  - intros explanation Hfirst Hsecond.
    rewrite analyze_cell_at_target, Hcode, Hfirst, Hsecond.
    unfold sent. cbn [_agent displayed requests].
    by rewrite <- app_assoc.
Qed.

End StoredCell.

Lemma X4_other_cell_gives_info_witness :
  exists msg : pystr,
    analyze_cell
      (Samples.disk (Samples.document
         [Samples.raw_code (FStr (py "openai = Client()"));
          Samples.raw_markdown (FStr (py "# notes"))]))
      Samples.steady init (py "lab.ipynb") 1 Samples.fresh
    = (Returned (info msg), Samples.fresh).
Proof.
  eexists.
  apply (X4_other_cell_gives_info _ Samples.steady init (py "lab.ipynb") 1
           Samples.fresh
           (Samples.document
              [Samples.raw_code (FStr (py "openai = Client()"));
               Samples.raw_markdown (FStr (py "# notes"))])
           [Samples.code_cell 0 "openai = Client()";
            Samples.markdown_cell 1 "# notes"]
           (Samples.markdown_cell 1 "# notes")).
  - reflexivity.
  - vm_compute. reflexivity.
  - discriminate.
  - reflexivity.
  - vm_compute. reflexivity.
Defined.

Lemma X5_code_cell_two_requests_witness :
  fst (analyze_cell
         (Samples.disk (Samples.document [Samples.raw_code (FStr (py "x = 1"))]))
         Samples.steady init (py "lab.ipynb") 0 Samples.fresh)
  = Returned (analysed 0 (py "x = 1") (py "ok") (py "ok")).
Proof.
  rewrite (X5_code_cell_two_requests
             (Samples.disk (Samples.document
                [Samples.raw_code (FStr (py "x = 1"))]))
             Samples.steady init (py "lab.ipynb") 0 Samples.fresh
             (Samples.document [Samples.raw_code (FStr (py "x = 1"))])
             [Samples.code_cell 0 "x = 1"] (Samples.code_cell 0 "x = 1")
             eq_refl ltac:(vm_compute; reflexivity) ltac:(discriminate)
             eq_refl (py "ok") (py "ok")
             ltac:(vm_compute; reflexivity) eq_refl eq_refl).
  reflexivity.
Defined.

Lemma X6_service_failure_propagates_witness :
  fst (analyze_cell
         (Samples.disk (Samples.document [Samples.raw_code (FStr (py "x = 1"))]))
         Samples.down init (py "lab.ipynb") 0 Samples.fresh)
  = Raised (APIError "service unavailable").
Proof.
  rewrite (proj1 (X6_service_failure_propagates
             (Samples.disk (Samples.document
                [Samples.raw_code (FStr (py "x = 1"))]))
             Samples.down init (py "lab.ipynb") 0 Samples.fresh
             (Samples.document [Samples.raw_code (FStr (py "x = 1"))])
             [Samples.code_cell 0 "x = 1"] (Samples.code_cell 0 "x = 1")
             eq_refl ltac:(vm_compute; reflexivity) ltac:(discriminate)
             eq_refl (APIError "service unavailable")
             ltac:(vm_compute; reflexivity)) eq_refl).
  reflexivity.
Defined.

(** X7: [analyze_cell] changes nothing in the world but the list of
    requests, to which it adds at most two; it adds one only when the
    document was loaded and parsed and the index selects a code cell. *)
Theorem X7_requests_only_for_code_cell
    (json_load_file : pystr -> outcome notebook)
    (completions_create : list chat_request -> chat_request -> outcome pystr)
    (self : LearningAgent) (path : pystr) (idx : Z) (w : world) :
  exists new : list chat_request,
    snd (analyze_cell json_load_file completions_create self path idx w)
    = {| _agent := _agent w;
         displayed := displayed w;
         requests := requests w ++ new |}
    /\ length new <= 2
    /\ (new <> [] ->
        exists (nb : notebook) (cells : list cell_data) (target : cell_data),
          json_load_file path = Returned nb
          /\ parse_loaded nb = Returned cells
          /\ (idx < Z.of_nat (length cells))%Z
          /\ py_index cells idx = Some target
          /\ is_code target = true).
Proof.
  assert (w = {| _agent := _agent w; displayed := displayed w;
                 requests := requests w ++ [] |}) as Hsame
    by (rewrite app_nil_r; by destruct w).
  assert (forall o : outcome analysis,
            analyze_cell json_load_file completions_create self path idx w
            = (o, w) ->
            exists new : list chat_request,
              snd (analyze_cell json_load_file completions_create self path
                     idx w)
              = {| _agent := _agent w; displayed := displayed w;
                   requests := requests w ++ new |}
              /\ length new <= 2
              /\ (new <> [] ->
                  exists (nb : notebook) (cells : list cell_data)
                         (target : cell_data),
                    json_load_file path = Returned nb
                    /\ parse_loaded nb = Returned cells
                    /\ (idx < Z.of_nat (length cells))%Z
                    /\ py_index cells idx = Some target
                    /\ is_code target = true)) as Hquiet.
  { intros o Ho. exists []. rewrite Ho. cbn [snd].
    split; [exact Hsame|]. split; [cbn [length]; lia|]. by intros []. }
  destruct (json_load_file path) as [nb|e] eqn:Hload.
  2: { apply (Hquiet (Raised e)). unfold analyze_cell.
       by rewrite bind_parse_notebook, Hload. }
  destruct (parse_loaded nb) as [cells|e] eqn:Hparse.
  2: { apply (Hquiet (Raised e)). unfold analyze_cell.
       by rewrite bind_parse_notebook, Hload, Hparse. }
  destruct (decide (Z.of_nat (length cells) <= idx)%Z) as [Hge|Hlt].
  { eapply Hquiet. unfold analyze_cell.
    rewrite bind_parse_notebook, Hload, Hparse.
    by assert ((Z.of_nat (length cells) <=? idx)%Z = true) as -> by lia. }
  assert (idx < Z.of_nat (length cells))%Z as Hlt' by lia.
  pose proof (analyze_cell_parsed json_load_file completions_create self path
                idx w nb cells Hload Hparse Hlt') as Hrun.
  destruct (py_index cells idx) as [target|] eqn:Hindex;
    [|by apply (Hquiet (Raised IndexError))].
  destruct (is_code target) eqn:Hcode; [|by eapply Hquiet].
  cbv zeta in Hrun.
  assert (exists (nb0 : notebook) (cells0 : list cell_data)
                 (target0 : cell_data),
            Returned nb = Returned nb0
            /\ parse_loaded nb0 = Returned cells0
            /\ (idx < Z.of_nat (length cells0))%Z
            /\ py_index cells0 idx = Some target0
            /\ is_code target0 = true) as Hwhy
    by (by exists nb, cells, target).
  destruct (completions_create _ _) as [explanation|e] in Hrun.
  - destruct (completions_create _ _) as [experiments|e] in Hrun;
      rewrite Hrun; cbn [snd]; unfold sent;
      cbn [_agent displayed requests];
      (eexists [_; _]; split; [by rewrite <- app_assoc|];
       split; [cbn [length]; lia|by intros _]).
  - rewrite Hrun. cbn [snd]. unfold sent.
    eexists [_]. split; [reflexivity|].
    split; [cbn [length]; lia|by intros _].
Qed.

Lemma X7_requests_only_for_code_cell_witness :
  exists new : list chat_request,
    requests (snd (analyze_cell
                     (Samples.disk (Samples.document
                        [Samples.raw_markdown (FStr (py "# notes"))]))
                     Samples.steady init (py "lab.ipynb") 0 Samples.fresh))
    = requests Samples.fresh ++ new
    /\ length new <= 2.
Proof.
  destruct (X7_requests_only_for_code_cell
              (Samples.disk (Samples.document
                 [Samples.raw_markdown (FStr (py "# notes"))]))
              Samples.steady init (py "lab.ipynb") 0 Samples.fresh)
    as (new & Hworld & Hlen & _).
  exists new. split; [|exact Hlen]. rewrite Hworld. reflexivity.
Defined.

(** X8: in the analysis of cell [idx] of a parsed document, the context
    names only code cells at one of the three positions before [idx]: never
    the target itself, never a cell after it, never a cell more than three
    positions back. *)
Theorem X8_context_from_three_positions_before (nb : notebook)
    (cells : list cell_data) (idx : Z) :
  parse_loaded nb = Returned cells ->
  (0 < idx <= Z.of_nat (length cells))%Z ->
  build_context (Some (slice_to cells idx))
  = py "Previous cells executed:
" ++ concat (map context_line
               (List.filter is_code (slice_last 3 (slice_to cells idx))))
  /\ forall data : cell_data,
       In data (List.filter is_code (slice_last 3 (slice_to cells idx))) ->
       (idx - 3 <= Z.of_nat (cell_index data) < idx)%Z
       /\ cells !! cell_index data = Some data
       /\ is_code data = true.
Proof.
  intros Hparse Hidx. unfold slice_to. split.
  - destruct cells as [|cell rest]; [cbn [length] in Hidx; lia|].
    destruct (Z.to_nat idx) as [|n] eqn:Hn; [lia|].
    cbn [take]. apply build_context_lines.
  - intros data Hin. apply List.filter_In in Hin as [Hin Hcode].
    apply list_elem_of_In, list_elem_of_lookup in Hin as [j Hj].
    unfold slice_last in Hj. rewrite length_take, lookup_drop in Hj.
    apply lookup_take_Some in Hj as [Hj Hlt].
    pose proof (parsed_index_is_position nb cells _ data Hparse Hj) as Hpos.
    rewrite Hpos. split; [lia|]. by split.
Qed.

Lemma X8_context_from_three_positions_before_witness :
  (3 - 3 <= Z.of_nat (cell_index (Samples.code_cell 1 "b = 2")) < 3)%Z.
Proof.
  refine (proj1 (proj2 (X8_context_from_three_positions_before
            (Samples.document
               [Samples.raw_code (FStr (py "a = 1"));
                Samples.raw_code (FStr (py "b = 2"));
                Samples.raw_code (FStr (py "c = 3"));
                Samples.raw_markdown (FStr (py "# notes"))])
            Samples.three_code_one_markdown 3 _ _)
            (Samples.code_cell 1 "b = 2") _)).
  - vm_compute. reflexivity.
  - vm_compute. split; [reflexivity|discriminate].
  - vm_compute. right. left. reflexivity.
Defined.

(** ** The live session, when the previous cell has text *)

Lemma with_agent_after (w : world) : with_agent w = after w [] [].
Proof. unfold with_agent, after. by rewrite !app_nil_r. Qed.

Lemma shown_after (item : display_item) (w : world)
    (items : list display_item) (new : list chat_request) :
  shown item (after w items new) = after w (items ++ [item]) new.
Proof.
  unfold shown, after. cbn [_agent displayed requests]. by rewrite <- app_assoc.
Qed.

Lemma sent_after (request : chat_request) (w : world)
    (items : list display_item) (new : list chat_request) :
  sent request (after w items new) = after w items (new ++ [request]).
Proof.
  unfold sent, after. cbn [_agent displayed requests]. by rewrite <- app_assoc.
Qed.

Ltac to_after :=
  rewrite ?with_agent_after;
  repeat first [rewrite shown_after | rewrite sent_after];
  cbn [app].

Section LiveCell.

Variable completions_create : list chat_request -> chat_request -> outcome pystr.
Variables (ipython : InteractiveShell) (w : world) (n : Z) (prev_cell : pystr).

Hypothesis Hcount : execution_count ipython = Some n.
Hypothesis Hprevious : (1 < n)%Z.
Hypothesis Hcell : previous_cell ipython (n - 1) = Returned prev_cell.
Hypothesis Htext : forallb isspace prev_cell = false.

Let clean_code : pystr := strip prev_cell.

Let explain_request : chat_request :=
  user_request (agent_of w) (explain_prompt [] (n - 1) clean_code).

Let experiments_request : chat_request :=
  user_request (agent_of w) (experiments_prompt clean_code).

Ltac enter :=
  unfold_entry; rewrite Hcount;
  assert ((n <=? 1)%Z = false) as -> by lia;
  cbv zeta; rewrite Hcell, bind_lift_returned; cbv beta;
  rewrite (proj2 (blank_false_iff prev_cell) Htext); cbv zeta;
  unfold learning_agent.explain_concept, learning_agent.suggest_experiments;
  cbv zeta; repeat run_step;
  cbn [requests shown sent with_agent build_context];
  fold clean_code; fold explain_request; fold experiments_request.

Lemma explain_this_cell_run :
  explain_this_cell completions_create ipython w
  = match completions_create (requests w) explain_request with
    | Raised e =>
        (Raised e,
         after w [HTML rule_green;
                  Markdown (py "# 🎓 Understanding This Code");
                  code_block clean_code] [explain_request])
    | Returned explanation =>
        (Returned tt,
         after w [HTML rule_green;
                  Markdown (py "# 🎓 Understanding This Code");
                  code_block clean_code;
                  Markdown explanation] [explain_request])
    end.
Proof.
  enter. destruct (completions_create _ _); repeat run_step; by to_after.
Qed.

Lemma experiments_for_this_cell_run :
  experiments_for_this_cell completions_create ipython w
  = match completions_create (requests w) experiments_request with
    | Raised e =>
        (Raised e,
         after w [HTML rule_orange;
                  Markdown (py "# 🔬 Experiments to Try")]
               [experiments_request])
    | Returned experiments =>
        (Returned tt,
         after w [HTML rule_orange;
                  Markdown (py "# 🔬 Experiments to Try");
                  Markdown experiments] [experiments_request])
    end.
Proof.
  enter. destruct (completions_create _ _); repeat run_step; by to_after.
Qed.

Lemma teach_me_this_cell_run :
  teach_me_this_cell completions_create ipython w
  = match completions_create (requests w) explain_request with
    | Raised e =>
        (Raised e,
         after w [HTML banner;
                  Markdown (py "## 📝 Your Code");
                  code_block clean_code;
                  HTML rule_green;
                  Markdown (py "## 🎓 Concept Explanation")]
               [explain_request])
    | Returned explanation =>
        match completions_create (requests w ++ [explain_request])
                experiments_request with
        | Raised e =>
            (Raised e,
             after w [HTML banner;
                      Markdown (py "## 📝 Your Code");
                      code_block clean_code;
                      HTML rule_green;
                      Markdown (py "## 🎓 Concept Explanation");
                      Markdown explanation;
                      HTML rule_orange;
                      Markdown (py "## 🔬 Hands-On Experiments")]
                   [explain_request; experiments_request])
        | Returned experiments =>
            (Returned tt,
             after w [HTML banner;
                      Markdown (py "## 📝 Your Code");
                      code_block clean_code;
                      HTML rule_green;
                      Markdown (py "## 🎓 Concept Explanation");
                      Markdown explanation;
                      HTML rule_orange;
                      Markdown (py "## 🔬 Hands-On Experiments");
                      Markdown experiments;
                      HTML tip]
                   [explain_request; experiments_request])
        end
    end.
Proof.
  enter. destruct (completions_create _ _); repeat run_step;
    [|by to_after].
  cbn [requests shown sent with_agent].
  fold explain_request.
  destruct (completions_create _ _); repeat run_step; by to_after.
Qed.

End LiveCell.

Section Snippet.

Variable completions_create : list chat_request -> chat_request -> outcome pystr.
Variables (code_string : pystr) (w : world).

Lemma explain_code_run :
  explain_code completions_create code_string w
  = match completions_create (requests w)
            (user_request (agent_of w) (explain_prompt [] 0 code_string)) with
    | Raised e =>
        (Raised e,
         after w [HTML rule_green;
                  Markdown (py "# 🎓 Code Explanation");
                  code_block code_string]
               [user_request (agent_of w) (explain_prompt [] 0 code_string)])
    | Returned explanation =>
        (Returned tt,
         after w [HTML rule_green;
                  Markdown (py "# 🎓 Code Explanation");
                  code_block code_string;
                  Markdown explanation]
               [user_request (agent_of w) (explain_prompt [] 0 code_string)])
    end.
Proof.
  unfold explain_code. rewrite bind_get_agent. cbv beta.
  unfold learning_agent.explain_concept. cbv zeta. repeat run_step.
  cbn [requests shown sent with_agent build_context].
  destruct (completions_create _ _); repeat run_step; by to_after.
Qed.

Lemma suggest_experiments_run :
  notebook_helper.suggest_experiments completions_create code_string w
  = match completions_create (requests w)
            (user_request (agent_of w) (experiments_prompt code_string)) with
    | Raised e =>
        (Raised e,
         after w [HTML rule_orange;
                  Markdown (py "# 🔬 Experiments to Try")]
               [user_request (agent_of w) (experiments_prompt code_string)])
    | Returned experiments =>
        (Returned tt,
         after w [HTML rule_orange;
                  Markdown (py "# 🔬 Experiments to Try");
                  Markdown experiments]
               [user_request (agent_of w) (experiments_prompt code_string)])
    end.
Proof.
  unfold notebook_helper.suggest_experiments. rewrite bind_get_agent. cbv beta.
  unfold learning_agent.suggest_experiments. cbv zeta. repeat run_step.
  cbn [requests shown sent with_agent].
  destruct (completions_create _ _); repeat run_step; by to_after.
Qed.

End Snippet.

(** X9: when the previous cell has text and the service answers, [teach]
    sends two requests about the stripped text, the explanation first, both
    without context and with the ordinal of the previous cell, and displays
    in order the banner, the code, the explanation, the experiments and the
    closing tip. *)
Theorem X9_teach_explains_then_experiments
    (completions_create : list chat_request -> chat_request -> outcome pystr)
    (ipython : InteractiveShell) (w : world) (n : Z)
    (prev_cell explanation experiments : pystr) :
  execution_count ipython = Some n ->
  (1 < n)%Z ->
  previous_cell ipython (n - 1) = Returned prev_cell ->
  forallb isspace prev_cell = false ->
  let explain_request :=
    user_request (agent_of w) (explain_prompt [] (n - 1) (strip prev_cell)) in
  let experiments_request :=
    user_request (agent_of w) (experiments_prompt (strip prev_cell)) in
  completions_create (requests w) explain_request = Returned explanation ->
  completions_create (requests w ++ [explain_request]) experiments_request
  = Returned experiments ->
  teach_me_this_cell completions_create ipython w
  = (Returned tt,
     after w [HTML banner;
              Markdown (py "## 📝 Your Code");
              code_block (strip prev_cell);
              HTML rule_green;
              Markdown (py "## 🎓 Concept Explanation");
              Markdown explanation;
              HTML rule_orange;
              Markdown (py "## 🔬 Hands-On Experiments");
              Markdown experiments;
              HTML tip]
           [explain_request; experiments_request]).
Proof.
  intros Hcount Hprevious Hcell Htext explain_request experiments_request
    Hfirst Hsecond.
  rewrite (teach_me_this_cell_run completions_create ipython w n prev_cell
             Hcount Hprevious Hcell Htext).
  cbv zeta. fold explain_request experiments_request.
  by rewrite Hfirst, Hsecond.
Qed.

Lemma X9_teach_explains_then_experiments_witness :
  requests (snd (teach_me_this_cell Samples.steady
                   (Samples.session (Some 5%Z)
                      [py ""; py "a"; py "b"; py "c"; py "x = 1"])
                   Samples.fresh))
  = [user_request init (explain_prompt [] 4 (py "x = 1"));
     user_request init (experiments_prompt (py "x = 1"))].
Proof.
  rewrite (X9_teach_explains_then_experiments Samples.steady
             (Samples.session (Some 5%Z)
                [py ""; py "a"; py "b"; py "c"; py "x = 1"])
             Samples.fresh 5 (py "x = 1") (py "ok") (py "ok")
             eq_refl eq_refl ltac:(vm_compute; reflexivity)
             ltac:(vm_compute; reflexivity) eq_refl eq_refl).
  vm_compute. reflexivity.
Defined.

(** X10: when the explanation request of [teach] fails, the exception of the
    service leaves [teach] after the banner, the code and the heading of the
    explanation are displayed, and the experiments request is never sent;
    when the experiments request fails, the explanation stays displayed and
    the closing tip is not. *)
Theorem X10_teach_stops_at_first_failure
    (completions_create : list chat_request -> chat_request -> outcome pystr)
    (ipython : InteractiveShell) (w : world) (n : Z)
    (prev_cell : pystr) (e : exn) :
  execution_count ipython = Some n ->
  (1 < n)%Z ->
  previous_cell ipython (n - 1) = Returned prev_cell ->
  forallb isspace prev_cell = false ->
  let explain_request :=
    user_request (agent_of w) (explain_prompt [] (n - 1) (strip prev_cell)) in
  let experiments_request :=
    user_request (agent_of w) (experiments_prompt (strip prev_cell)) in
  (completions_create (requests w) explain_request = Raised e ->
   teach_me_this_cell completions_create ipython w
   = (Raised e,
      after w [HTML banner;
               Markdown (py "## 📝 Your Code");
               code_block (strip prev_cell);
               HTML rule_green;
               Markdown (py "## 🎓 Concept Explanation")]
            [explain_request]))
  /\ (forall explanation : pystr,
        completions_create (requests w) explain_request
        = Returned explanation ->
        completions_create (requests w ++ [explain_request])
          experiments_request = Raised e ->
        teach_me_this_cell completions_create ipython w
        = (Raised e,
           after w [HTML banner;
                    Markdown (py "## 📝 Your Code");
                    code_block (strip prev_cell);
                    HTML rule_green;
                    Markdown (py "## 🎓 Concept Explanation");
                    Markdown explanation;
                    HTML rule_orange;
                    Markdown (py "## 🔬 Hands-On Experiments")]
                 [explain_request; experiments_request])).
Proof.
  intros Hcount Hprevious Hcell Htext explain_request experiments_request.
  rewrite (teach_me_this_cell_run completions_create ipython w n prev_cell
             Hcount Hprevious Hcell Htext).
  cbv zeta. fold explain_request experiments_request. split.
  - intros Hfirst. by rewrite Hfirst.
  - intros explanation Hfirst Hsecond. by rewrite Hfirst, Hsecond.
Qed.

Lemma X10_teach_stops_at_first_failure_witness :
  fst (teach_me_this_cell Samples.down
         (Samples.session (Some 2%Z) [py ""; py "x = 1"]) Samples.fresh)
  = Raised (APIError "service unavailable")
  /\ length (requests (snd (teach_me_this_cell Samples.down
                             (Samples.session (Some 2%Z) [py ""; py "x = 1"])
                             Samples.fresh))) = 1.
Proof.
  rewrite (proj1 (X10_teach_stops_at_first_failure Samples.down
             (Samples.session (Some 2%Z) [py ""; py "x = 1"])
             Samples.fresh 2 (py "x = 1") (APIError "service unavailable")
             eq_refl eq_refl ltac:(vm_compute; reflexivity)
             ltac:(vm_compute; reflexivity)) eq_refl).
  split; reflexivity.
Defined.

(** X11: when the previous cell has text, [explain] sends the explanation
    request only and [experiments] the experiments request only; each
    displays the answer after its heading, [explain] with the code before
    it and [experiments] without the code. *)
Theorem X11_explain_and_experiments_send_one_request
    (completions_create : list chat_request -> chat_request -> outcome pystr)
    (ipython : InteractiveShell) (w : world) (n : Z)
    (prev_cell answer : pystr) :
  execution_count ipython = Some n ->
  (1 < n)%Z ->
  previous_cell ipython (n - 1) = Returned prev_cell ->
  forallb isspace prev_cell = false ->
  let explain_request :=
    user_request (agent_of w) (explain_prompt [] (n - 1) (strip prev_cell)) in
  let experiments_request :=
    user_request (agent_of w) (experiments_prompt (strip prev_cell)) in
  (completions_create (requests w) explain_request = Returned answer ->
   explain_this_cell completions_create ipython w
   = (Returned tt,
      after w [HTML rule_green;
               Markdown (py "# 🎓 Understanding This Code");
               code_block (strip prev_cell);
               Markdown answer] [explain_request]))
  /\ (completions_create (requests w) experiments_request = Returned answer ->
      experiments_for_this_cell completions_create ipython w
      = (Returned tt,
         after w [HTML rule_orange;
                  Markdown (py "# 🔬 Experiments to Try");
                  Markdown answer] [experiments_request])).
Proof.
  intros Hcount Hprevious Hcell Htext explain_request experiments_request.
  rewrite (explain_this_cell_run completions_create ipython w n prev_cell
             Hcount Hprevious Hcell Htext).
  rewrite (experiments_for_this_cell_run completions_create ipython w n
             prev_cell Hcount Hprevious Hcell Htext).
  cbv zeta. fold explain_request experiments_request.
  split; intros Hanswer; by rewrite Hanswer.
Qed.

Lemma X11_explain_and_experiments_send_one_request_witness :
  requests (snd (explain_this_cell Samples.steady
                   (Samples.session (Some 2%Z) [py ""; py " x = 1 "])
                   Samples.fresh))
  = [user_request init (explain_prompt [] 1 (py "x = 1"))].
Proof.
  rewrite (proj1 (X11_explain_and_experiments_send_one_request Samples.steady
             (Samples.session (Some 2%Z) [py ""; py " x = 1 "])
             Samples.fresh 2 (py " x = 1 ") (py "ok")
             eq_refl eq_refl ltac:(vm_compute; reflexivity)
             ltac:(vm_compute; reflexivity)) eq_refl).
  vm_compute. reflexivity.
Defined.

(** X12: [explain_code] and [suggest_experiments] of the notebook helper
    take any string, empty or blank included, and send exactly one request
    with it unchanged (not stripped), as cell 0 and without context; when
    the service answers, the answer is displayed last. *)
Theorem X12_snippet_sent_as_given
    (completions_create : list chat_request -> chat_request -> outcome pystr)
    (code_string : pystr) (w : world) :
  let explain_request :=
    user_request (agent_of w) (explain_prompt [] 0 code_string) in
  let experiments_request :=
    user_request (agent_of w) (experiments_prompt code_string) in
  requests (snd (explain_code completions_create code_string w))
  = requests w ++ [explain_request]
  /\ requests (snd (notebook_helper.suggest_experiments completions_create
                      code_string w))
     = requests w ++ [experiments_request]
  /\ (forall answer : pystr,
        completions_create (requests w) explain_request = Returned answer ->
        explain_code completions_create code_string w
        = (Returned tt,
           after w [HTML rule_green;
                    Markdown (py "# 🎓 Code Explanation");
                    code_block code_string;
                    Markdown answer] [explain_request]))
  /\ (forall answer : pystr,
        completions_create (requests w) experiments_request
        = Returned answer ->
        notebook_helper.suggest_experiments completions_create code_string w
        = (Returned tt,
           after w [HTML rule_orange;
                    Markdown (py "# 🔬 Experiments to Try");
                    Markdown answer] [experiments_request])).
Proof.
  intros explain_request experiments_request.
  rewrite explain_code_run, suggest_experiments_run.
  fold explain_request experiments_request.
  split; [by destruct (completions_create _ explain_request)|].
  split; [by destruct (completions_create _ experiments_request)|].
  split; intros answer Hanswer; by rewrite Hanswer.
Qed.

Lemma X12_snippet_sent_as_given_witness :
  fst (explain_code Samples.steady (py "") Samples.fresh) = Returned tt
  /\ requests (snd (explain_code Samples.steady (py "") Samples.fresh))
     = [user_request init (explain_prompt [] 0 (py ""))].
Proof.
  rewrite (proj1 (proj2 (proj2 (X12_snippet_sent_as_given Samples.steady
             (py "") Samples.fresh))) (py "ok") eq_refl).
  split; reflexivity.
Defined.

(** ** What every call of the notebook helper keeps *)

Lemma grows_after (w : world) (items : list display_item)
    (prompts : list pystr) :
  length prompts <= 2 ->
  grows w (after w items (map (user_request (agent_of w)) prompts)).
Proof.
  intros Hlen. exists items, (map (user_request (agent_of w)) prompts).
  split; [reflexivity|]. split; [by rewrite length_map|].
  apply Forall_forall. intros r Hr.
  apply list_elem_of_fmap in Hr as (prompt & -> & _). by exists prompt.
Qed.

Ltac show_grows :=
  match goal with
  | |- grows ?w (after ?w ?items []) =>
      apply (grows_after w items []); cbn [length]; lia
  | |- grows ?w (after ?w ?items [user_request _ ?p]) =>
      apply (grows_after w items [p]); cbn [length]; lia
  | |- grows ?w (after ?w ?items [user_request _ ?p; user_request _ ?q]) =>
      apply (grows_after w items [p; q]); cbn [length]; lia
  end.

(** X13: every call of the notebook helper, whether it warns, succeeds or
    fails, leaves the world it found extended, never rewritten: the agent is
    the one of the world if it had one and a new one otherwise (and it stays
    for the calls that follow), what was displayed and requested before is
    still there in the same order, and at most two requests are added, each
    with the model of that agent and one message of role [user]. *)
Theorem X13_helper_calls_only_extend_the_world
    (completions_create : list chat_request -> chat_request -> outcome pystr)
    (ipython : InteractiveShell) (code_string : pystr) (w : world) :
  grows w (snd (explain_this_cell completions_create ipython w))
  /\ grows w (snd (experiments_for_this_cell completions_create ipython w))
  /\ grows w (snd (teach_me_this_cell completions_create ipython w))
  /\ grows w (snd (explain_code completions_create code_string w))
  /\ grows w (snd (notebook_helper.suggest_experiments completions_create
                     code_string w))
  /\ (forall w' : world,
        grows w w' ->
        _agent w' = Some (agent_of w) /\ agent_of w' = agent_of w
        /\ (_agent w = None -> agent_model (agent_of w') = py "gpt-4o")).
Proof.
  assert (grows w (snd (explain_code completions_create code_string w))
          /\ grows w (snd (notebook_helper.suggest_experiments
                             completions_create code_string w))) as Hsnippet.
  { rewrite explain_code_run, suggest_experiments_run.
    split; destruct (completions_create _ _); cbn [snd]; show_grows. }
  assert (forall w' : world,
            grows w w' ->
            _agent w' = Some (agent_of w) /\ agent_of w' = agent_of w
            /\ (_agent w = None -> agent_model (agent_of w') = py "gpt-4o"))
    as Hagent.
  { intros w' (items & new & -> & _). split; [reflexivity|].
    split; [reflexivity|]. intros Hnone. unfold agent_of at 1.
    cbn [after _agent default]. unfold agent_of. by rewrite Hnone. }
  assert (grows w (snd (explain_this_cell completions_create ipython w))
          /\ grows w (snd (experiments_for_this_cell completions_create
                             ipython w))
          /\ grows w (snd (teach_me_this_cell completions_create ipython w)))
    as Hlive.
  { destruct (execution_count ipython) as [n|] eqn:Hcount.
    2: { destruct (entry_points_out_of_range completions_create ipython w)
           as (-> & -> & ->); [by rewrite Hcount|].
         cbn [snd]. repeat split; show_grows. }
    destruct (decide (n <= 1)%Z) as [Hle|Hgt].
    { destruct (entry_points_out_of_range completions_create ipython w)
        as (-> & -> & ->); [by rewrite Hcount|].
      cbn [snd]. repeat split; show_grows. }
    assert (1 < n)%Z as Hprevious by lia.
    pose proof (previous_cell_entry ipython (n - 1) ltac:(lia)) as Hcell.
    set (prev_cell := default [] (history_entry ipython (n - 1))) in Hcell.
    destruct (blank prev_cell) eqn:Hblank.
    { destruct (entry_points_blank completions_create ipython w n prev_cell
                  Hcount Hprevious Hcell Hblank) as (-> & -> & ->).
      cbn [snd]. repeat split; show_grows. }
    apply blank_false_iff in Hblank.
    rewrite (explain_this_cell_run completions_create ipython w n prev_cell
               Hcount Hprevious Hcell Hblank).
    rewrite (experiments_for_this_cell_run completions_create ipython w n
               prev_cell Hcount Hprevious Hcell Hblank).
    rewrite (teach_me_this_cell_run completions_create ipython w n prev_cell
               Hcount Hprevious Hcell Hblank).
    cbv zeta. split; [|split].
    - destruct (completions_create _ _); cbn [snd]; show_grows.
    - destruct (completions_create _ _); cbn [snd]; show_grows.
    - destruct (completions_create _ _); cbn [snd]; [|show_grows].
      destruct (completions_create _ _); cbn [snd]; show_grows. }
  destruct Hlive as (He & Hx & Ht). destruct Hsnippet as (Hc & Hs).
  repeat (split; [assumption|]). exact Hagent.
Qed.

Lemma X13_helper_calls_only_extend_the_world_witness :
  _agent (snd (teach_me_this_cell Samples.steady
                 (Samples.session (Some 2%Z) [py ""; py "x = 1"])
                 Samples.fresh))
  = Some init.
Proof.
  destruct (X13_helper_calls_only_extend_the_world Samples.steady
              (Samples.session (Some 2%Z) [py ""; py "x = 1"]) (py "")
              Samples.fresh) as (_ & _ & Hteach & _ & _ & Hagent).
  exact (proj1 (Hagent _ Hteach)).
Defined.

(** ** The text that is sent *)

Lemma lstrip_split (s : pystr) :
  exists l : pystr,
    s = l ++ lstrip s
    /\ forallb isspace l = true
    /\ forall c : N, head (lstrip s) = Some c -> isspace c = false.
Proof.
  induction s as [|c t (l & Ht & Hl & Hhead)].
  - exists []. repeat split. intros c Hc. discriminate Hc.
  - cbn [lstrip]. destruct (isspace c) eqn:Hc.
    + exists (c :: l). cbn [app forallb]. rewrite Hc, Hl.
      split; [by rewrite <- Ht|]. by split.
    + exists []. repeat split. intros c' [= <-]. exact Hc.
Qed.

Lemma rstrip_split (s : pystr) :
  exists r : pystr,
    s = rstrip s ++ r
    /\ forallb isspace r = true
    /\ forall c : N, last (rstrip s) = Some c -> isspace c = false.
Proof.
  unfold rstrip. destruct (lstrip_split (reverse s)) as (l & Hs & Hl & Hhead).
  exists (reverse l). split; [|split].
  - rewrite <- reverse_app, <- Hs. by rewrite reverse_involutive.
  - by rewrite forallb_reverse.
  - intros c. rewrite last_reverse. apply Hhead.
Qed.

(** X14: the code that the live entry points send, [prev_cell.strip()], is
    the text of the previous cell without the whitespace at its two ends and
    nothing else removed: the text is some whitespace, then the code, then
    some whitespace, and the code begins and ends with a character that is
    not whitespace. *)
Theorem X14_clean_code_is_the_text_without_its_margins (prev_cell : pystr) :
  blank prev_cell = false ->
  exists (l r : pystr) (first final : N),
    prev_cell = l ++ strip prev_cell ++ r
    /\ forallb isspace l = true
    /\ forallb isspace r = true
    /\ head (strip prev_cell) = Some first /\ isspace first = false
    /\ last (strip prev_cell) = Some final /\ isspace final = false.
Proof.
  intros Hblank.
  assert (strip prev_cell <> []) as Hne
    by (intros E; apply blank_iff in E; congruence).
  unfold strip in *.
  destruct (lstrip_split prev_cell) as (l & Hl & Hlspace & Hhead).
  destruct (rstrip_split (lstrip prev_cell)) as (r & Hr & Hrspace & Hlast).
  destruct (rstrip (lstrip prev_cell)) as [|first rest] eqn:Hstrip; [done|].
  destruct (last (first :: rest)) as [final|] eqn:Hfinal;
    [|by apply last_None in Hfinal].
  exists l, r, first, final.
  split; [by rewrite <- Hr|]. split; [exact Hlspace|]. split; [exact Hrspace|].
  split; [reflexivity|]. split; [|split; [reflexivity|by apply Hlast]].
  apply Hhead. by rewrite Hr.
Qed.

Lemma X14_clean_code_is_the_text_without_its_margins_witness :
  exists (l r : pystr) (first final : N),
    py "  x = 1 " = l ++ strip (py "  x = 1 ") ++ r
    /\ forallb isspace l = true
    /\ forallb isspace r = true
    /\ head (strip (py "  x = 1 ")) = Some first /\ isspace first = false
    /\ last (strip (py "  x = 1 ")) = Some final /\ isspace final = false.
Proof.
  apply X14_clean_code_is_the_text_without_its_margins.
  vm_compute. reflexivity.
Defined.

(** ** The history that is read *)

(** X15: when the history manager has a parsed input history, the user
    namespace is not read: the three live entry points behave alike whatever
    is bound there, [In] included. *)
Theorem X15_parsed_history_shadows_the_namespace
    (completions_create : list chat_request -> chat_request -> outcome pystr)
    (ipython : InteractiveShell) (hist : list pystr)
    (ns : gmap string ns_value) (w : world) :
  input_hist_parsed (history_manager ipython) = Some hist ->
  let other :=
    {| execution_count := execution_count ipython;
       history_manager := history_manager ipython;
       user_ns := ns |} in
  explain_this_cell completions_create other w
  = explain_this_cell completions_create ipython w
  /\ experiments_for_this_cell completions_create other w
     = experiments_for_this_cell completions_create ipython w
  /\ teach_me_this_cell completions_create other w
     = teach_me_this_cell completions_create ipython w.
Proof.
  intros Hhist other.
  assert (forall k : Z, previous_cell other k = previous_cell ipython k)
    as Hsame.
  { intros k. unfold previous_cell, try_previous, other.
    cbn [history_manager user_ns]. by rewrite Hhist. }
  unfold explain_this_cell, experiments_for_this_cell, teach_me_this_cell.
  unfold other at 1 3 5. cbn [execution_count].
  destruct (execution_count ipython) as [n|]; [|by repeat split].
  destruct (n <=? 1)%Z; [by repeat split|].
  cbv zeta. rewrite !Hsame. by repeat split.
Qed.

Lemma X15_parsed_history_shadows_the_namespace_witness :
  teach_me_this_cell Samples.steady
    {| execution_count := Some 2%Z;
       history_manager := {| input_hist_parsed := Some [py ""; py "x = 1"] |};
       user_ns := {[ "In" := NsList [py ""; py "y = 2"] ]} |}
    Samples.fresh
  = teach_me_this_cell Samples.steady
      (Samples.session (Some 2%Z) [py ""; py "x = 1"]) Samples.fresh.
Proof.
  exact (proj2 (proj2 (X15_parsed_history_shadows_the_namespace
           Samples.steady (Samples.session (Some 2%Z) [py ""; py "x = 1"])
           [py ""; py "x = 1"] {[ "In" := NsList [py ""; py "y = 2"] ]}
           Samples.fresh eq_refl))).
Defined.

(** ** The interactive session *)

Lemma printed_first (s : pystr) (c : console) :
  printed s c = {| process := process c; stdout := with_prints (stdout c) [s] |}.
Proof.
  unfold printed, with_prints. cbn [map concat]. by rewrite app_nil_r.
Qed.

Lemma printed_next (s : pystr) (w : world) (out : pystr) (args : list pystr) :
  printed s {| process := w; stdout := with_prints out args |}
  = {| process := w; stdout := with_prints out (args ++ [s]) |}.
Proof.
  unfold printed, with_prints. cbn [process stdout].
  rewrite map_app, concat_app. cbn [map concat].
  by rewrite app_nil_r, <- app_assoc.
Qed.

Section IORun.

Context {A B : Type}.

Lemma io_bind_print (s : pystr) (k : unit -> IO B) (c : console) :
  io_bind (print s) k c = k tt (printed s c).
Proof. reflexivity. Qed.

Lemma print_run (s : pystr) (c : console) :
  print s c = (Returned tt, printed s c).
Proof. reflexivity. Qed.

Lemma io_bind_in_process (m : M A) (k : A -> IO B) (c : console) :
  io_bind (in_process m) k c
  = match m (process c) with
    | (Returned a, w) => k a {| process := w; stdout := stdout c |}
    | (Raised e, w) => (Raised e, {| process := w; stdout := stdout c |})
    end.
Proof.
  unfold io_bind, in_process. by destruct (m (process c)) as [[a|e] w].
Qed.

End IORun.

Ltac print_step :=
  first [rewrite io_bind_print | rewrite print_run]; cbv beta;
  rewrite printed_next; cbn [app].

(** What an interactive session does, by the outcome of the analysis. *)
Lemma interactive_session_run
    (json_load_file : pystr -> outcome notebook)
    (completions_create : list chat_request -> chat_request -> outcome pystr)
    (self : LearningAgent) (path : pystr) (idx : Z) (c : console) :
  interactive_session json_load_file completions_create self path idx c
  = match analyze_cell json_load_file completions_create self path idx
            (process c) with
    | (Raised e, w) =>
        (Raised e,
         {| process := w;
            stdout := with_prints (stdout c) (header_prints idx) |})
    | (Returned (error msg), w) =>
        (Returned tt,
         {| process := w;
            stdout := with_prints (stdout c)
                        (header_prints idx
                           ++ [error_or_info (Some msg) None]) |})
    | (Returned (info msg), w) =>
        (Returned tt,
         {| process := w;
            stdout := with_prints (stdout c) (header_prints idx ++ [msg]) |})
    | (Returned (analysed _ cell_content explanation experiments), w) =>
        (Returned tt,
         {| process := w;
            stdout := with_prints (stdout c)
                        (header_prints idx
                           ++ [ py "📚 CELL CODE:
";
                                py "```python";
                                cell_content;
                                py "```
";
                                str_mul (py "─") 80;
                                py "
🎓 CONCEPT EXPLANATION
";
                                explanation;
                                py "
" ++ str_mul (py "─") 80;
                                py "
🔬 HANDS-ON EXPERIMENTS
";
                                experiments;
                                py "
" ++ str_mul (py "=") 80 ++ py "
" ]) |})
    end.
Proof.
  unfold interactive_session, header_prints.
  rewrite io_bind_print; cbv beta. rewrite printed_first.
  rewrite io_bind_print; cbv beta. rewrite printed_next; cbn [app].
  rewrite io_bind_print; cbv beta. rewrite printed_next; cbn [app].
  rewrite io_bind_in_process. cbn [process stdout].
  destruct (analyze_cell _ _ _ _ _ _) as [[[msg|msg|i content expl exper]|e] w];
    [| | |reflexivity].
  - rewrite print_run, printed_next. reflexivity.
  - rewrite print_run, printed_next. reflexivity.
  - do 10 print_step. rewrite print_run, printed_next. reflexivity.
Qed.

Lemma analyze_cell_out_of_range
    (json_load_file : pystr -> outcome notebook)
    (completions_create : list chat_request -> chat_request -> outcome pystr)
    (self : LearningAgent) (path : pystr) (idx : Z) (w : world)
    (nb : notebook) (cells : list cell_data) :
  json_load_file path = Returned nb ->
  parse_loaded nb = Returned cells ->
  (Z.of_nat (length cells) <= idx)%Z ->
  analyze_cell json_load_file completions_create self path idx w
  = (Returned (error (py "Cell index " ++ str_int idx
                      ++ py " out of range. Notebook has "
                      ++ str_int (Z.of_nat (length cells)) ++ py " cells.")),
     w).
Proof.
  intros Hload Hparse Hge. unfold analyze_cell.
  rewrite bind_parse_notebook, Hload, Hparse.
  by assert ((Z.of_nat (length cells) <=? idx)%Z = true) as -> by lia.
Qed.

Lemma error_message_printed_as_is (idx : Z) (count : nat) :
  error_or_info
    (Some (py "Cell index " ++ str_int idx ++ py " out of range. Notebook has "
           ++ str_int (Z.of_nat count) ++ py " cells.")) None
  = py "Cell index " ++ str_int idx ++ py " out of range. Notebook has "
      ++ str_int (Z.of_nat count) ++ py " cells.".
Proof.
  assert (py "Cell index " = 67%N :: py "ell index ") as ->
    by (vm_compute; reflexivity).
  reflexivity.
Qed.

(** X16: an interactive session prints its three header lines before the
    document is opened, so they are printed even when the analysis fails; an
    exception of the analysis (the file cannot be loaded, a key is missing,
    the service fails) leaves the session as it is, with nothing printed
    after the header. *)
Theorem X16_session_prints_header_then_fails
    (json_load_file : pystr -> outcome notebook)
    (completions_create : list chat_request -> chat_request -> outcome pystr)
    (self : LearningAgent) (path : pystr) (idx : Z) (c : console) :
  (forall (e : exn) (w : world),
     analyze_cell json_load_file completions_create self path idx (process c)
     = (Raised e, w) ->
     interactive_session json_load_file completions_create self path idx c
     = (Raised e,
        {| process := w;
           stdout := with_prints (stdout c)
                       [ py "
" ++ str_mul (py "=") 80;
                         py "  Learning Companion - Analyzing Cell "
                           ++ str_int idx;
                         str_mul (py "=") 80 ++ py "
" ] |}))
  /\ (forall e : exn,
        json_load_file path = Raised e ->
        interactive_session json_load_file completions_create self path idx c
        = (Raised e,
           {| process := process c;
              stdout := with_prints (stdout c) (header_prints idx) |}))
  /\ (forall nb : notebook,
        json_load_file path = Returned nb ->
        malformed nb ->
        exists key : string,
          interactive_session json_load_file completions_create self path
            idx c
          = (Raised (KeyError key),
             {| process := process c;
                stdout := with_prints (stdout c) (header_prints idx) |})).
Proof.
  split; [|split].
  - intros e w Hrun. by rewrite interactive_session_run, Hrun.
  - intros e Hload. rewrite interactive_session_run.
    unfold analyze_cell. by rewrite bind_parse_notebook, Hload.
  - intros nb Hload Hbad.
    destruct (parse_loaded_outcome nb)
      as [(_ & key & _ & Hraise)|(Hgood & _)]; [|by destruct Hgood].
    exists key. rewrite interactive_session_run.
    unfold analyze_cell. by rewrite bind_parse_notebook, Hload, Hraise.
Qed.

Lemma X16_session_prints_header_then_fails_witness :
  interactive_session (fun _ => Raised (OSError "No such file")) Samples.steady
    init (py "lab.ipynb") 10
    {| process := Samples.fresh; stdout := [] |}
  = (Raised (OSError "No such file"),
     {| process := Samples.fresh;
        stdout := with_prints [] (header_prints 10) |}).
Proof.
  exact (proj1 (proj2 (X16_session_prints_header_then_fails
           (fun _ => Raised (OSError "No such file")) Samples.steady
           init (py "lab.ipynb") 10
           {| process := Samples.fresh; stdout := [] |}))
         (OSError "No such file") eq_refl).
Defined.

(** X17: when the index is at or above the number of cells, or the target
    is not a code cell, the session prints the header and then the message
    of the result on one line, the message itself and never [None]; it sends
    no request. *)
Theorem X17_session_prints_the_message
    (json_load_file : pystr -> outcome notebook)
    (completions_create : list chat_request -> chat_request -> outcome pystr)
    (self : LearningAgent) (path : pystr) (idx : Z) (c : console)
    (nb : notebook) (cells : list cell_data) :
  json_load_file path = Returned nb ->
  parse_loaded nb = Returned cells ->
  ((Z.of_nat (length cells) <= idx)%Z ->
   interactive_session json_load_file completions_create self path idx c
   = (Returned tt,
      {| process := process c;
         stdout := with_prints (stdout c)
                     (header_prints idx
                        ++ [ py "Cell index " ++ str_int idx
                             ++ py " out of range. Notebook has "
                             ++ str_int (Z.of_nat (length cells))
                             ++ py " cells." ]) |}))
  /\ (forall target : cell_data,
        (0 <= idx)%Z ->
        cells !! Z.to_nat idx = Some target ->
        is_code target = false ->
        interactive_session json_load_file completions_create self path idx c
        = (Returned tt,
           {| process := process c;
              stdout := with_prints (stdout c)
                          (header_prints idx
                             ++ [ py "Cell " ++ str_int idx
                                  ++ py " is a markdown cell, not code." ])
           |})).
Proof.
  intros Hload Hparse. split.
  - intros Hge. rewrite interactive_session_run.
    rewrite (analyze_cell_out_of_range json_load_file completions_create self
               path idx (process c) nb cells Hload Hparse Hge).
    by rewrite error_message_printed_as_is.
  - intros target Hidx Htarget Hcode. rewrite interactive_session_run.
    rewrite (analyze_cell_at_target json_load_file completions_create self
               path idx (process c) nb cells target Hload Hparse Hidx Htarget).
    by rewrite Hcode.
Qed.

Lemma X17_session_prints_the_message_witness :
  interactive_session
    (Samples.disk (Samples.document [Samples.raw_code (FStr (py "x = 1"))]))
    Samples.steady init (py "lab.ipynb") 10
    {| process := Samples.fresh; stdout := [] |}
  = (Returned tt,
     {| process := Samples.fresh;
        stdout := with_prints []
                    (header_prints 10
                       ++ [ py "Cell index " ++ str_int 10
                            ++ py " out of range. Notebook has "
                            ++ str_int (Z.of_nat
                                 (length [Samples.code_cell 0 "x = 1"]))
                            ++ py " cells." ]) |}).
Proof.
  apply (proj1 (X17_session_prints_the_message
           (Samples.disk (Samples.document
              [Samples.raw_code (FStr (py "x = 1"))]))
           Samples.steady init (py "lab.ipynb") 10
           {| process := Samples.fresh; stdout := [] |}
           (Samples.document [Samples.raw_code (FStr (py "x = 1"))])
           [Samples.code_cell 0 "x = 1"] eq_refl
           ltac:(vm_compute; reflexivity))).
  vm_compute. discriminate.
Defined.

(** X18: when the analysis of a code cell completes, the session prints,
    after the header and in this order, the source of the cell in a code
    fence, the explanation under its heading and the experiments under
    theirs, and a closing rule; the two requests of the analysis are the only
    ones sent. *)
Theorem X18_session_prints_the_analysis
    (json_load_file : pystr -> outcome notebook)
    (completions_create : list chat_request -> chat_request -> outcome pystr)
    (self : LearningAgent) (path : pystr) (idx : Z) (c : console)
    (nb : notebook) (cells : list cell_data) (target : cell_data)
    (explanation experiments : pystr) :
  json_load_file path = Returned nb ->
  parse_loaded nb = Returned cells ->
  (0 <= idx)%Z ->
  cells !! Z.to_nat idx = Some target ->
  is_code target = true ->
  let explain_request :=
    user_request self
      (explain_prompt (build_context (Some (slice_to cells idx))) idx
         (cell_source target)) in
  let experiments_request :=
    user_request self (experiments_prompt (cell_source target)) in
  completions_create (requests (process c)) explain_request
  = Returned explanation ->
  completions_create (requests (process c) ++ [explain_request])
    experiments_request = Returned experiments ->
  interactive_session json_load_file completions_create self path idx c
  = (Returned tt,
     {| process :=
          {| _agent := _agent (process c);
             displayed := displayed (process c);
             requests := requests (process c)
                           ++ [explain_request; experiments_request] |};
        stdout := with_prints (stdout c)
                    (header_prints idx
                       ++ [ py "📚 CELL CODE:
";
                            py "```python";
                            cell_source target;
                            py "```
";
                            str_mul (py "─") 80;
                            py "
🎓 CONCEPT EXPLANATION
";
                            explanation;
                            py "
" ++ str_mul (py "─") 80;
                            py "
🔬 HANDS-ON EXPERIMENTS
";
                            experiments;
                            py "
" ++ str_mul (py "=") 80 ++ py "
" ]) |}).
Proof.
  intros Hload Hparse Hidx Htarget Hcode explain_request experiments_request
    Hfirst Hsecond.
  rewrite interactive_session_run.
  rewrite (analyze_cell_at_target json_load_file completions_create self
             path idx (process c) nb cells target Hload Hparse Hidx Htarget).
  rewrite Hcode. fold explain_request experiments_request.
  rewrite Hfirst, Hsecond. unfold sent. cbn [_agent displayed requests].
  by rewrite <- app_assoc.
Qed.

Lemma X18_session_prints_the_analysis_witness :
  fst (interactive_session
         (Samples.disk (Samples.document [Samples.raw_code (FStr (py "x = 1"))]))
         Samples.steady init (py "lab.ipynb") 0
         {| process := Samples.fresh; stdout := [] |})
  = Returned tt.
Proof.
  rewrite (X18_session_prints_the_analysis
             (Samples.disk (Samples.document
                [Samples.raw_code (FStr (py "x = 1"))]))
             Samples.steady init (py "lab.ipynb") 0
             {| process := Samples.fresh; stdout := [] |}
             (Samples.document [Samples.raw_code (FStr (py "x = 1"))])
             [Samples.code_cell 0 "x = 1"] (Samples.code_cell 0 "x = 1")
             (py "ok") (py "ok")
             eq_refl ltac:(vm_compute; reflexivity) ltac:(discriminate)
             eq_refl ltac:(vm_compute; reflexivity) eq_refl eq_refl).
  reflexivity.
Defined.

(** ** The context header *)

Lemma filter_none {A} (f : A -> bool) (l : list A) :
  forallb (fun x => negb (f x)) l = true -> List.filter f l = [].
Proof.
  induction l as [|x l IH]; cbn [forallb List.filter]; [done|].
  destruct (f x); cbn [negb andb]; [discriminate|exact IH].
Qed.

(** X19: the context of an explanation is empty exactly when no cell is
    passed as context ([None] or an empty list); as soon as one cell is
    passed, the context opens with the line [Previous cells executed:], and
    it is that line alone when none of the last three cells is a code
    cell. *)
Theorem X19_context_header (context_cells : option (list cell_data)) :
  (build_context context_cells = []
   <-> context_cells = None \/ context_cells = Some [])
  /\ (forall (cell : cell_data) (rest : list cell_data),
        context_cells = Some (cell :: rest) ->
        exists lines : pystr,
          build_context context_cells = py "Previous cells executed:
" ++ lines)
  /\ (forall (cell : cell_data) (rest : list cell_data),
        context_cells = Some (cell :: rest) ->
        forallb (fun c => negb (is_code c)) (slice_last 3 (cell :: rest))
        = true ->
        build_context context_cells = py "Previous cells executed:
").
Proof.
  assert (py "Previous cells executed:
" = 80%N :: py "revious cells executed:
") as Hhead by (vm_compute; reflexivity).
  split; [|split].
  - split.
    + destruct context_cells as [[|cell rest]|]; [by right| |by left].
      rewrite build_context_lines, Hhead. discriminate.
    + by intros [-> | ->].
  - intros cell rest ->. rewrite build_context_lines. by eexists.
  - intros cell rest -> Hnone. rewrite build_context_lines.
    rewrite (filter_none _ _ Hnone). cbn [map concat]. apply app_nil_r.
Qed.

Lemma X19_context_header_witness :
  build_context (Some [Samples.markdown_cell 0 "# notes"])
  = py "Previous cells executed:
".
Proof.
  exact (proj2 (proj2 (X19_context_header
           (Some [Samples.markdown_cell 0 "# notes"])))
         (Samples.markdown_cell 0 "# notes") [] eq_refl
         ltac:(vm_compute; reflexivity)).
Defined.
